(** * nexus-cli: the registry client and the retention logic

    A shallow embedding of [internal/pkg/registry/registry.go] and of the
    command handlers of [cmd/nexus-cli/main.go].  Go functions become
    functions in a small trace monad: the state is the list of observable
    events (HTTP requests sent, lines printed), and a computation either
    returns or panics.  A Go result [(T, error)] is a pair [T * option error].
    The packages the program imports (net/http, encoding/json, time, os, toml,
    sort) and the remote server are gathered in a record [Env] over which
    every definition is parametric.

    Covered: [NewRegistry], [ListImages], [ListTagsByImage], [ImageManifest],
    [SearchAssets], [DeleteImageByTag], [DeleteImageByTagByAssetId] and
    [GetImageTagDate] of the registry package, and the handlers [deleteImage]
    and [showTotalImageSize] of the command.  [defer resp.Body.Close()] has
    no effect on what is returned, sent or printed and is left out. *)

From Stdlib Require Import ZArith Lia Ascii String.
From stdpp Require Import base option list strings gmap pretty sorting.

Local Open Scope string_scope.
Local Open Scope list_scope.

(** ** Go values *)

(** A Go slice [[]T]: the elements below [len], and the rest of the backing
    array up to [cap].  The program never tells a nil slice from an empty
    one, so nil is the slice with no element and no spare room. *)
Record slice (A : Type) := mkSlice { elems : list A; spare : list A }.
Arguments mkSlice {A} _ _.
Arguments elems {A} _.
Arguments spare {A} _.

Definition nilSlice {A} : slice A := mkSlice [] [].
Definition len {A} (s : slice A) : Z := Z.of_nat (length (elems s)).
Definition cap {A} (s : slice A) : Z :=
  Z.of_nat (length (elems s) + length (spare s)).

(** [s[:high]]: legal for [0 <= high <= cap(s)], a run-time panic otherwise. *)
Definition resliceTo {A} (s : slice A) (high : Z) : option (slice A) :=
  if bool_decide (0 ≤ high ∧ high ≤ cap s)%Z then
    let all := elems s ++ spare s in
    Some (mkSlice (take (Z.to_nat high) all) (drop (Z.to_nat high) all))
  else None.

(** [int64] arithmetic wraps around. *)
Definition wrap64 (z : Z) : Z :=
  ((z + 2 ^ 63) mod 2 ^ 64 - 2 ^ 63)%Z.

(** ** Errors *)

Inductive error :=
| errorString (msg : string)             (* fmt.Errorf *)
| ExitError (msg : string) (code : Z)    (* cli.NewExitError *)
| pkgError (pkg : string) (msg : string) (* an error made by an imported package *).

Definition Error (e : error) : string :=
  match e with
  | errorString msg => msg
  | ExitError msg _ => msg
  | pkgError _ msg => msg
  end.

Definition NewExitError (msg : string) (code : Z) : error := ExitError msg code.

(** ** fmt *)

(** The line feed, [\n] in a Go string literal. *)
Definition LF : string := String "010"%char "".

Inductive arg := ArgS (s : string) | ArgD (n : Z).

Definition verbChar (c : ascii) : string := String c "".

(** One operand under one verb, with Go's bad-verb rendering when the
    operand's type does not fit. *)
Definition formatArg (verb : ascii) (a : arg) : string :=
  match a with
  | ArgS s =>
      if bool_decide (verb = "s"%char ∨ verb = "v"%char) then s
      else "%!" +:+ verbChar verb +:+ "(string=" +:+ s +:+ ")"
  | ArgD n =>
      if bool_decide (verb = "d"%char ∨ verb = "v"%char) then pretty n
      else "%!" +:+ verbChar verb +:+ "(int=" +:+ pretty n +:+ ")"
  end.

(** The verbs the program uses.  Every call site passes exactly the operands
    its verbs consume, so surplus operands are not rendered. *)
Fixpoint Sprintf (format : string) (args : list arg) : string :=
  match format with
  | "" => ""
  | String "%" (String verb rest) =>
      match args with
      | a :: args' => formatArg verb a +:+ Sprintf rest args'
      | [] => "%!" +:+ verbChar verb +:+ "(MISSING)" +:+ Sprintf rest []
      end
  | String c rest => String c (Sprintf rest args)
  end.

Definition Errorf (format : string) (args : list arg) : error :=
  errorString (Sprintf format args).

(** ** net/http values *)

Record Request := mkRequest {
  Method : string;
  URL : string;
  BasicAuth : option (string * string);
  ReqHeader : list (string * string)
}.

(** JSON documents, as the decoder's scanner sees them. *)
#[local] Set Warnings "-register-all".
Inductive json :=
| JNull
| JBool (b : bool)
| JNumber (n : Z)
| JString (s : string)
| JArray (items : list json)
| JObject (members : list (string * json)).

(** A response body: bytes that are no JSON document, or the document. *)
Inductive body := NotJSON (raw : string) | Document (doc : json).

Record Response := mkResponse {
  StatusCode : Z;
  Header : gmap string (list string);
  Body : body
}.

Definition isLower (c : ascii) : bool :=
  let n := nat_of_ascii c in (97 <=? n)%nat && (n <=? 122)%nat.
Definition isUpper (c : ascii) : bool :=
  let n := nat_of_ascii c in (65 <=? n)%nat && (n <=? 90)%nat.
Definition toUpper (c : ascii) : ascii :=
  if isLower c then ascii_of_nat (nat_of_ascii c - 32) else c.
Definition toLower (c : ascii) : ascii :=
  if isUpper c then ascii_of_nat (nat_of_ascii c + 32) else c.

(** textproto.CanonicalMIMEHeaderKey on a well-formed header name: the first
    letter and every letter after a hyphen in upper case, the others in
    lower case. *)
Fixpoint canonicalFrom (upper : bool) (s : string) : string :=
  match s with
  | "" => ""
  | String c rest =>
      String (if upper then toUpper c else toLower c)
             (canonicalFrom (bool_decide (c = "-"%char)) rest)
  end.
Definition CanonicalMIMEHeaderKey (s : string) : string := canonicalFrom true s.

(** [Header.Get]: the first value stored under the canonical key, or "". *)
Definition Header_Get (h : gmap string (list string)) (key : string) : string :=
  match h !! CanonicalMIMEHeaderKey key with
  | Some (v :: _) => v
  | _ => ""
  end.

(** ** time *)

Record Time := mkTime { unix : Z; zoneName : string; zoneOffset : Z }.

Definition RFC1123 : string := "Mon, 02 Jan 2006 15:04:05 MST".

(** ** The structures of [registry.go] *)

Definition acceptHeader : string := "application/vnd.docker.distribution.manifest.v2+json".
Definition acceptHeaderJson : string := "application/json".
Definition credentialsFile : string := ".credentials".

Record Registry := mkRegistry {
  Host : string;
  Username : string;
  Password : string;
  Repository : string
}.

Record repositories := mkRepositories { Images : slice string }.

Record imageTags := mkImageTags { Name : string; Tags : slice string }.

Record layerInfo := mkLayerInfo {
  MediaType : string;
  Size : Z;
  Digest : string
}.

Record ImageManifest := mkImageManifest {
  SchemaVersion : Z;
  ManifestMediaType : string;
  Config : layerInfo;
  Layers : slice layerInfo
}.

Record assetChecksum := mkChecksum { Sha1 : string; Sha256 : string }.

Record searchAsset := mkAsset {
  DownloadURL : string;
  Path : string;
  ID : string;
  AssetRepository : string;
  AssetFormat : string;
  Checksum : assetChecksum
}.

(** [interface{}] fields hold nil or whatever JSON value was decoded. *)
Record searchItem := mkItem {
  ItemID : string;
  ItemRepository : string;
  ItemFormat : string;
  Group : option json;
  ItemName : string;
  Version : string;
  Assets : slice searchAsset
}.

Record SearchAssets := mkSearchAssets {
  Items : slice searchItem;
  ContinuationToken : option json
}.

(** The zero values of [var x T]. *)
Definition zeroRegistry : Registry := mkRegistry "" "" "" "".
Definition zeroRepositories : repositories := mkRepositories nilSlice.
Definition zeroImageTags : imageTags := mkImageTags "" nilSlice.
Definition zeroLayerInfo : layerInfo := mkLayerInfo "" 0 "".
Definition zeroImageManifest : ImageManifest :=
  mkImageManifest 0 "" zeroLayerInfo nilSlice.
Definition zeroSearchAssets : SearchAssets := mkSearchAssets nilSlice None.

(** ** Observable events and the trace monad *)

Inductive event :=
| Sent (req : Request)                          (* client.Do(req) *)
| Printf (format : string) (args : list arg)    (* fmt.Printf *)
| Fprintf (format : string) (args : list arg)   (* fmt.Fprintf(c.App.Writer, ...) *)
| ShowSubcommandHelp                            (* cli.ShowSubcommandHelp(c) *).

(** The trace so far, oldest event first. *)
Definition World := list event.

Inductive outcome (A : Type) :=
| Returned (a : A)
| Panicked (msg : string).
Arguments Returned {A} _.
Arguments Panicked {A} _.

Definition M (A : Type) : Type := World -> outcome A * World.

Definition ret {A} (a : A) : M A := fun w => (Returned a, w).

Definition bind {A B} (m : M A) (k : A -> M B) : M B :=
  fun w =>
    match m w with
    | (Returned a, w') => k a w'
    | (Panicked msg, w') => (Panicked msg, w')
    end.

Definition emit (e : event) : M unit := fun w => (Returned tt, w ++ [e]).

Definition panic {A} (msg : string) : M A := fun w => (Panicked msg, w).

Notation "x <- m ;; k" := (bind m (fun x => k))
  (at level 100, m at next level, right associativity).
Notation "m ;;; k" := (bind m (fun _ => k))
  (at level 100, right associativity).

(** [for _, x := range xs { body }] over the variables [s] that the body
    assigns.  The body may leave the enclosing function with [return v]: it
    then yields [inr v], and [inl s'] when it runs to its end. *)
Fixpoint forRange {A S R} (xs : list A) (body : A -> S -> M (S + R)) (s : S)
  : M (S + R) :=
  match xs with
  | [] => ret (inl s)
  | x :: xs' =>
      r <- body x s ;;
      match r with
      | inl s' => forRange xs' body s'
      | inr v => ret (inr v)
      end
  end.

(** ** The imported packages and the remote side *)

Record Env := mkEnv {
  (* net/http: what http.NewRequest rejects (method, URL), and the answer of
     client.Do to a request given everything that happened before it *)
  http_NewRequest_err : string -> string -> option error;
  client_Do : World -> Request -> Response + error;
  (* encoding/json: Decode(&v) stores into v and reports an error; the value
     of v before, the value after and the error *)
  Decode_repositories : body -> repositories -> repositories * option error;
  Decode_imageTags : body -> imageTags -> imageTags * option error;
  Decode_ImageManifest : body -> ImageManifest -> ImageManifest * option error;
  Decode_SearchAssets : body -> SearchAssets -> SearchAssets * option error;
  (* time *)
  time_Now : World -> Time;
  time_Parse : string -> string -> Time + error;
  (* os, toml: the credentials file *)
  os_Stat : string -> option error;
  os_IsNotExist : option error -> bool;
  toml_DecodeFile : string -> Registry -> Registry * option error;
  (* sort.Sort on a slice of strings under a less-than function *)
  sort_Sort : (string -> string -> bool) -> list string -> list string
}.

(** ** The tag comparator (spec section 4.2) *)

Definition isDigit (c : ascii) : bool :=
  let n := nat_of_ascii c in (48 <=? n)%nat && (n <=? 57)%nat.

Definition digitValue (c : ascii) : Z := (Z.of_nat (nat_of_ascii c) - 48)%Z.

(** The string from its first digit character on. *)
Fixpoint fromFirstDigit (s : string) : string :=
  match s with
  | "" => ""
  | String c rest => if isDigit c then s else fromFirstDigit rest
  end.

(** The base-10 value of the digit run a string starts with, continuing
    from [acc]. *)
Fixpoint parseDigitRun (acc : Z) (s : string) : Z :=
  match s with
  | "" => acc
  | String c rest =>
      if isDigit c then parseDigitRun (acc * 10 + digitValue c) rest else acc
  end.

(** Modelled from the spec: [extractNumberFromString] is called by
    [main.go] but defined in a file that is not part of the sources at hand.
    Spec 4.2: scan the tag for the first contiguous run of digit characters,
    parse it as a base-10 integer, and take 0 when there is no digit run. *)
Definition extractNumberFromString (str : string) : Z :=
  parseDigitRun 0 (fromFirstDigit str).

(** The closure [compareStringNumber] of [listTagsByImage] and [deleteImage]. *)
Definition compareStringNumber (str1 str2 : string) : bool :=
  (extractNumberFromString str1 <? extractNumberFromString str2)%Z.

Section Client.
Context (E : Env).

(** Modelled from the spec: [Compare(cmp).Sort(tags)] is called by [main.go]
    but defined in a file that is not part of the sources at hand.  Spec 4.2:
    the comparator is used as a strict less-than by a generic sort, in place;
    nothing is promised about ties.  The sort itself is [sort_Sort] of the
    environment; the spare room of the slice is not touched. *)
Definition Compare_Sort (cmp : string -> string -> bool) (strs : slice string)
  : slice string :=
  mkSlice (sort_Sort E cmp (elems strs)) (spare strs).

(** ** net/http calls *)

Definition NewRequest (method url : string) : Request + error :=
  match http_NewRequest_err E method url with
  | Some err => inr err
  | None => inl (mkRequest method url None [])
  end.

Definition SetBasicAuth (req : Request) (username password : string) : Request :=
  mkRequest (Method req) (URL req) (Some (username, password)) (ReqHeader req).

Definition Header_Add (req : Request) (key value : string) : Request :=
  mkRequest (Method req) (URL req) (BasicAuth req)
            (ReqHeader req ++ [(CanonicalMIMEHeaderKey key, value)]).

Definition Do (req : Request) : M (Response + error) :=
  fun w => (Returned (client_Do E w req), w ++ [Sent req]).

Definition Now : M Time := fun w => (Returned (time_Now E w), w).

(** ** registry.go *)

Definition NewRegistry : Registry * option error :=
  let r := zeroRegistry in
  let err := os_Stat E credentialsFile in
  if os_IsNotExist E err then
    (r, Some (Errorf "%s file not found: %v"
                     [ArgS credentialsFile; ArgS (from_option Error "<nil>" err)]))
  else
    match err with
    | Some e => (r, Some e)
    | None =>
        match toml_DecodeFile E credentialsFile r with
        | (r', Some e) => (r', Some e)
        | (r', None) => (r', None)
        end
    end.

Definition ListImages (r : Registry) : M (slice string * option error) :=
  let url := Sprintf "%s/repository/%s/v2/_catalog"
                     [ArgS (Host r); ArgS (Repository r)] in
  match NewRequest "GET" url with
  | inr err => ret (nilSlice, Some err)
  | inl req =>
      let req := SetBasicAuth req (Username r) (Password r) in
      let req := Header_Add req "Accept" acceptHeader in
      x <- Do req ;;
      match x with
      | inr err => ret (nilSlice, Some err)
      | inl resp =>
          if bool_decide (StatusCode resp ≠ 200%Z) then
            ret (nilSlice, Some (Errorf "HTTP Code: %d" [ArgD (StatusCode resp)]))
          else
            let repositories :=
              fst (Decode_repositories E (Body resp) zeroRepositories) in
            ret (Images repositories, None)
      end
  end.

Definition ListTagsByImage (r : Registry) (image : string)
  : M (slice string * option error) :=
  let url := Sprintf "%s/repository/%s/v2/%s/tags/list"
                     [ArgS (Host r); ArgS (Repository r); ArgS image] in
  match NewRequest "GET" url with
  | inr err => ret (nilSlice, Some err)
  | inl req =>
      let req := SetBasicAuth req (Username r) (Password r) in
      let req := Header_Add req "Accept" acceptHeader in
      x <- Do req ;;
      match x with
      | inr err => ret (nilSlice, Some err)
      | inl resp =>
          if bool_decide (StatusCode resp ≠ 200%Z) then
            ret (nilSlice, Some (Errorf "HTTP Code: %d" [ArgD (StatusCode resp)]))
          else
            let imageTags :=
              fst (Decode_imageTags E (Body resp) zeroImageTags) in
            ret (Tags imageTags, None)
      end
  end.

(** The method [Registry.ImageManifest]; the bare name is the structure's. *)
Definition Registry_ImageManifest (r : Registry) (image tag : string)
  : M (ImageManifest * option error) :=
  let imageManifest := zeroImageManifest in
  let url := Sprintf "%s/repository/%s/v2/%s/manifests/%s"
                     [ArgS (Host r); ArgS (Repository r); ArgS image; ArgS tag] in
  match NewRequest "GET" url with
  | inr err => ret (imageManifest, Some err)
  | inl req =>
      let req := SetBasicAuth req (Username r) (Password r) in
      let req := Header_Add req "Accept" acceptHeader in
      x <- Do req ;;
      match x with
      | inr err => ret (imageManifest, Some err)
      | inl resp =>
          if bool_decide (StatusCode resp ≠ 200%Z) then
            ret (imageManifest,
                 Some (Errorf "HTTP Code: %d" [ArgD (StatusCode resp)]))
          else
            let imageManifest :=
              fst (Decode_ImageManifest E (Body resp) imageManifest) in
            ret (imageManifest, None)
      end
  end.

(** The method [Registry.SearchAssets]; the bare name is the structure's. *)
Definition Registry_SearchAssets (r : Registry) (image tag : string)
  : M (SearchAssets * option error) :=
  let searchAsset := zeroSearchAssets in
  let url := Sprintf "%s/service/rest/v1/search?repository=%s&name=%s&version=%s"
                     [ArgS (Host r); ArgS (Repository r); ArgS image; ArgS tag] in
  match NewRequest "GET" url with
  | inr err => ret (searchAsset, Some err)
  | inl req =>
      let req := SetBasicAuth req (Username r) (Password r) in
      let req := Header_Add req "Accept" acceptHeaderJson in
      x <- Do req ;;
      match x with
      | inr err => ret (searchAsset, Some err)
      | inl resp =>
          if bool_decide (StatusCode resp ≠ 200%Z) then
            ret (searchAsset,
                 Some (Errorf "HTTP Code: %d" [ArgD (StatusCode resp)]))
          else
            let searchAsset :=
              fst (Decode_SearchAssets E (Body resp) searchAsset) in
            ret (searchAsset, None)
      end
  end.

Definition DeleteImageByTagByAssetId (r : Registry) (assetId image tag : string)
  : M (option error) :=
  let url := Sprintf "%s/service/rest/v1/assets/%s" [ArgS (Host r); ArgS assetId] in
  match NewRequest "DELETE" url with
  | inr err => ret (Some err)
  | inl req =>
      let req := SetBasicAuth req (Username r) (Password r) in
      let req := Header_Add req "Accept" acceptHeaderJson in
      x <- Do req ;;
      match x with
      | inr err => ret (Some err)
      | inl resp =>
          if bool_decide (StatusCode resp ≠ 202%Z) then
            ret (Some (Errorf
              "HTTP Code: %d, Failed to delete image by assetId: %s, %s:%s"
              [ArgD (StatusCode resp); ArgS assetId; ArgS image; ArgS tag]))
          else ret None
      end
  end.

(** [xs[0]] with Go's bounds check. *)
Definition index0 {A} (xs : slice A) : M A :=
  match elems xs !! 0%nat with
  | Some x => ret x
  | None =>
      panic ("runtime error: index out of range [0] with length "
               +:+ pretty (len xs))
  end.

Definition DeleteImageByTag (r : Registry) (image tag : string)
  : M (option error) :=
  found <- Registry_SearchAssets r image tag ;;
  let assets := fst found in
  match snd found with
  | Some e => ret (Some e)
  | None =>
      (if bool_decide (len (Items assets) > 0)%Z then
         item0 <- index0 (Items assets) ;;
         asset0 <- index0 (Assets item0) ;;
         let assetId := ID asset0 in
         DeleteImageByTagByAssetId r assetId image tag ;;;
         emit (Printf ("%s:%s has been successful deleted" +:+ LF)
                      [ArgS image; ArgS tag])
       else
         emit (Printf ("No assets found for %s:%s" +:+ LF)
                      [ArgS image; ArgS tag])) ;;;
      ret None
  end.

Definition GetImageTagDate (r : Registry) (image tag : string)
  : M (Time * option error) :=
  let url := Sprintf "%s/repository/%s/v2/%s/manifests/%s"
                     [ArgS (Host r); ArgS (Repository r); ArgS image; ArgS tag] in
  match NewRequest "GET" url with
  | inr err => t0 <- Now ;; ret (t0, Some err)
  | inl req =>
      let req := SetBasicAuth req (Username r) (Password r) in
      let req := Header_Add req "Accept" acceptHeader in
      x <- Do req ;;
      match x with
      | inr err => t0 <- Now ;; ret (t0, Some err)
      | inl resp =>
          if bool_decide (StatusCode resp ≠ 200%Z) then
            t0 <- Now ;;
            ret (t0, Some (Errorf "HTTP Code: %d" [ArgD (StatusCode resp)]))
          else
            match time_Parse E RFC1123 (Header_Get (Header resp) "last-modified") with
            | inr err => t0 <- Now ;; ret (t0, Some err)
            | inl t => ret (t, None)
            end
      end
  end.

(** ** main.go *)

(** [cli.Context], as far as the handlers read it: [c.String] and [c.Int]. *)
Record Context := mkContext {
  c_String : string -> string;
  c_Int : string -> Z
}.

(** [tags[:high]] with Go's bounds check. *)
Definition sliceTo {A} (xs : slice A) (high : Z) : M (slice A) :=
  match resliceTo xs high with
  | Some ys => ret ys
  | None =>
      panic ("runtime error: slice bounds out of range [:" +:+ pretty high
               +:+ "] with capacity " +:+ pretty (cap xs))
  end.

Definition deleteImage (c : Context) : M (option error) :=
  let imgName := c_String c "name" in
  let tag := c_String c "tag" in
  let keep := c_Int c "keep" in
  if bool_decide (imgName = "") then
    emit (Fprintf ("You should specify the image name" +:+ LF) []) ;;;
    emit ShowSubcommandHelp ;;;
    ret None
  else
    match NewRegistry with
    | (_, Some err) => ret (Some (NewExitError (Error err) 1))
    | (r, None) =>
        if bool_decide (tag = "") then
          if bool_decide (keep = 0%Z) then
            emit (Fprintf ("You should either specify the tag or how many images you want to keep" +:+ LF) []) ;;;
            emit ShowSubcommandHelp ;;;
            ret None
          else
            listed <- ListTagsByImage r imgName ;;
            let tags := Compare_Sort compareStringNumber (fst listed) in
            match snd listed with
            | Some err => ret (Some (NewExitError (Error err) 1))
            | None =>
                if bool_decide (len tags >= keep)%Z then
                  oldest <- sliceTo tags (wrap64 (len tags - keep)) ;;
                  forRange (elems oldest) (fun tag (_ : unit) =>
                    emit (Printf ("%s:%s image will be deleted ..." +:+ LF)
                                 [ArgS imgName; ArgS tag]) ;;;
                    DeleteImageByTag r imgName tag ;;;
                    ret (inl tt : unit + option error)) tt ;;;
                  ret None
                else
                  emit (Printf ("Only %d images are available" +:+ LF)
                               [ArgD (len tags)]) ;;;
                  ret None
            end
        else
          err <- DeleteImageByTag r imgName tag ;;
          match err with
          | Some err => ret (Some (NewExitError (Error err) 1))
          | None => ret None
          end
    end.

(** [for _, layer := range manifest.Layers { sizeInfo[layer.Digest] = layer.Size }] *)
Definition recordLayers (sizeInfo : gmap string Z) (layers : slice layerInfo)
  : gmap string Z :=
  foldl (fun m layer => <[Digest layer := Size layer]> m) sizeInfo (elems layers).

(** [for _, size := range sizeInfo { totalSize += size }] with [int64]
    addition.  Go visits the entries in no fixed order; the wrapped sum does
    not depend on it ([sumSizes_any_order] below). *)
Definition sumSizes (sizeInfo : gmap string Z) (totalSize : Z) : Z :=
  map_fold (fun _ size total => wrap64 (total + size)) totalSize sizeInfo.

Definition showTotalImageSize (c : Context) : M (option error) :=
  let imgName := c_String c "name" in
  let totalSize := 0%Z in
  if bool_decide (imgName = "") then
    emit ShowSubcommandHelp ;;;
    ret None
  else
    match NewRegistry with
    | (_, Some err) => ret (Some (NewExitError (Error err) 1))
    | (r, None) =>
        listed <- ListTagsByImage r imgName ;;
        let tags := fst listed in
        match snd listed with
        | Some err => ret (Some (NewExitError (Error err) 1))
        | None =>
            let sizeInfo : gmap string Z := ∅ in
            looped <- forRange (elems tags) (fun tag sizeInfo =>
              fetched <- Registry_ImageManifest r imgName tag ;;
              let manifest := fst fetched in
              match snd fetched with
              | Some err => ret (inr (Some (NewExitError (Error err) 1)))
              | None => ret (inl (recordLayers sizeInfo (Layers manifest)))
              end) sizeInfo ;;
            match looped with
            | inr v => ret v
            | inl sizeInfo =>
                let totalSize := sumSizes sizeInfo totalSize in
                emit (Printf ("%d %s" +:+ LF) [ArgD totalSize; ArgS imgName]) ;;;
                ret None
            end
        end
    end.

End Client.

(** ** The other operations and handlers *)

Section Commands.
Context (E : Env).

(** The tab, [\t] in a Go string literal. *)
Definition TAB : string := String "009"%char "".

(** [fmt.Print(x)] and [fmt.Println(x)] with one operand write it in its
    default format, [Println] with a line feed after it: the output of
    [Printf] under the verb [%v]. *)
Definition Print (a : arg) : M unit := emit (Printf "%v" [a]).
Definition Println (a : arg) : M unit := emit (Printf ("%v" +:+ LF) [a]).

Definition getImageSHA (r : Registry) (image tag : string)
  : M (string * option error) :=
  let url := Sprintf "%s/repository/%s/v2/%s/manifests/%s"
                     [ArgS (Host r); ArgS (Repository r); ArgS image; ArgS tag] in
  match NewRequest E "GET" url with
  | inr err =>
      Print (ArgS "Can't even find the sha") ;;;
      ret ("", Some err)
  | inl req =>
      let req := SetBasicAuth req (Username r) (Password r) in
      let req := Header_Add req "Accept" acceptHeader in
      x <- Do E req ;;
      match x with
      | inr err =>
          Print (ArgS "Can't even find the sha") ;;;
          ret ("", Some err)
      | inl resp =>
          if bool_decide (StatusCode resp ≠ 200%Z) then
            ret ("", Some (Errorf "HTTP Code: %d, Failed to fetch image sha"
                                  [ArgD (StatusCode resp)]))
          else ret (Header_Get (Header resp) "docker-content-digest", None)
      end
  end.

Definition listImages (c : Context) : M (option error) :=
  match NewRegistry E with
  | (_, Some err) => ret (Some (NewExitError (Error err) 1))
  | (r, None) =>
      listed <- ListImages E r ;;
      let images := fst listed in
      match snd listed with
      | Some err => ret (Some (NewExitError (Error err) 1))
      | None =>
          forRange (elems images) (fun image (_ : unit) =>
            Println (ArgS image) ;;;
            ret (inl tt : unit + option error)) tt ;;;
          emit (Printf ("Total images: %d" +:+ LF) [ArgD (len images)]) ;;;
          ret None
      end
  end.

Definition listTagsByImage (c : Context) : M (option error) :=
  let imgName := c_String c "name" in
  match NewRegistry E with
  | (_, Some err) => ret (Some (NewExitError (Error err) 1))
  | (r, None) =>
      (if bool_decide (imgName = "") then emit ShowSubcommandHelp else ret tt) ;;;
      listed <- ListTagsByImage E r imgName ;;
      let tags := Compare_Sort E compareStringNumber (fst listed) in
      match snd listed with
      | Some err => ret (Some (NewExitError (Error err) 1))
      | None =>
          forRange (elems tags) (fun tag (_ : unit) =>
            Println (ArgS tag) ;;;
            ret (inl tt : unit + option error)) tt ;;;
          emit (Printf ("There are %d images for %s" +:+ LF)
                       [ArgD (len tags); ArgS imgName]) ;;;
          ret None
      end
  end.

Definition showImageInfo (c : Context) : M (option error) :=
  let imgName := c_String c "name" in
  let tag := c_String c "tag" in
  match NewRegistry E with
  | (_, Some err) => ret (Some (NewExitError (Error err) 1))
  | (r, None) =>
      (if bool_decide (imgName = "" ∨ tag = "") then emit ShowSubcommandHelp
       else ret tt) ;;;
      fetched <- Registry_ImageManifest E r imgName tag ;;
      let manifest := fst fetched in
      match snd fetched with
      | Some err => ret (Some (NewExitError (Error err) 1))
      | None =>
          emit (Printf ("Image: %s:%s" +:+ LF) [ArgS imgName; ArgS tag]) ;;;
          emit (Printf ("Size: %d" +:+ LF) [ArgD (Size (Config manifest))]) ;;;
          Println (ArgS "Layers:") ;;;
          forRange (elems (Layers manifest)) (fun layer (_ : unit) =>
            emit (Printf (TAB +:+ "%s" +:+ TAB +:+ "%d" +:+ LF)
                         [ArgS (Digest layer); ArgD (Size layer)]) ;;;
            ret (inl tt : unit + option error)) tt ;;;
          ret None
      end
  end.

End Commands.

(** ** A reference environment

    One concrete choice for every field of [Env], used to run the program on
    the worked examples: decoders that follow encoding/json on parsed
    documents, a parser for the RFC 1123 layout, an insertion sort, a clock,
    and a server scripted by a routing table. *)
Module Reference.

(** *** encoding/json on the structures of the client *)

Definition jsonError (msg : string) : error := pkgError "encoding/json" msg.

(** Unmarshal keeps the earliest error and carries on. *)
Definition saveError (saved new : option error) : option error :=
  match saved with
  | Some _ => saved
  | None => new
  end.

Definition setString (v : json) (old : string) : string * option error :=
  match v with
  | JString s => (s, None)
  | JNull => (old, None)
  | _ => (old, Some (jsonError "json: cannot unmarshal into Go value of type string"))
  end.

Definition setInt64 (v : json) (old : Z) : Z * option error :=
  match v with
  | JNumber n =>
      if bool_decide (- 2 ^ 63 ≤ n ∧ n < 2 ^ 63)%Z then (n, None)
      else (old, Some (jsonError "json: cannot unmarshal number into Go value of type int64"))
  | JNull => (old, None)
  | _ => (old, Some (jsonError "json: cannot unmarshal into Go value of type int64"))
  end.

Definition setInterface (v : json) (old : option json) : option json * option error :=
  match v with
  | JNull => (None, None)
  | _ => (Some v, None)
  end.

(** The elements of a JSON array, each decoded into the element the slice
    already holds at that index, or into a zero element. *)
Fixpoint setElems {T} (set : json -> T -> T * option error) (zero : T)
    (items : list json) (old : list T) : list T * option error :=
  match items with
  | [] => ([], None)
  | v :: items' =>
      let '(x, e) := set v (hd zero old) in
      let '(xs, es) := setElems set zero items' (tl old) in
      (x :: xs, saveError e es)
  end.

(** How much spare room the decoder leaves behind the elements depends on
    the Go release; these decoders leave none. *)
Definition setSlice {T} (set : json -> T -> T * option error) (zero : T)
    (v : json) (old : slice T) : slice T * option error :=
  match v with
  | JArray items =>
      let '(xs, e) := setElems set zero items (elems old) in
      (mkSlice xs [], e)
  | JNull => (nilSlice, None)
  | _ => (old, Some (jsonError "json: cannot unmarshal into Go value of slice type"))
  end.

Definition foldCase (s : string) : string :=
  string_of_list_ascii (map toLower (list_ascii_of_string s)).

(** A member name selects the field whose tag it equals, letter case aside. *)
Definition names (key tag : string) : bool :=
  bool_decide (foldCase key = foldCase tag).

(** A JSON object stored member by member, in document order. *)
Definition setStruct {T} (setField : string -> json -> T -> T * option error)
    (v : json) (old : T) : T * option error :=
  match v with
  | JObject members =>
      foldl (fun acc member =>
               let '(x, e) := setField (fst member) (snd member) (fst acc) in
               (x, saveError (snd acc) e))
            (old, None) members
  | JNull => (old, None)
  | _ => (old, Some (jsonError "json: cannot unmarshal into Go value of struct type"))
  end.

Definition on {T F} (get : T -> F) (put : F -> T -> T)
    (set : json -> F -> F * option error) (v : json) (old : T) : T * option error :=
  let '(f, e) := set v (get old) in (put f old, e).

Definition setRepositories : json -> repositories -> repositories * option error :=
  setStruct (fun key v old =>
    if names key "repositories" then
      on Images (fun f _ => mkRepositories f) (setSlice setString "") v old
    else (old, None)).

Definition setImageTags : json -> imageTags -> imageTags * option error :=
  setStruct (fun key v old =>
    if names key "name" then
      on Name (fun f o => mkImageTags f (Tags o)) setString v old
    else if names key "tags" then
      on Tags (fun f o => mkImageTags (Name o) f) (setSlice setString "") v old
    else (old, None)).

Definition setLayerInfo : json -> layerInfo -> layerInfo * option error :=
  setStruct (fun key v old =>
    if names key "mediaType" then
      on MediaType (fun f o => mkLayerInfo f (Size o) (Digest o)) setString v old
    else if names key "size" then
      on Size (fun f o => mkLayerInfo (MediaType o) f (Digest o)) setInt64 v old
    else if names key "digest" then
      on Digest (fun f o => mkLayerInfo (MediaType o) (Size o) f) setString v old
    else (old, None)).

Definition setImageManifest : json -> ImageManifest -> ImageManifest * option error :=
  setStruct (fun key v old =>
    if names key "schemaVersion" then
      on SchemaVersion
         (fun f o => mkImageManifest f (ManifestMediaType o) (Config o) (Layers o))
         setInt64 v old
    else if names key "mediaType" then
      on ManifestMediaType
         (fun f o => mkImageManifest (SchemaVersion o) f (Config o) (Layers o))
         setString v old
    else if names key "config" then
      on Config
         (fun f o => mkImageManifest (SchemaVersion o) (ManifestMediaType o) f (Layers o))
         setLayerInfo v old
    else if names key "layers" then
      on Layers
         (fun f o => mkImageManifest (SchemaVersion o) (ManifestMediaType o) (Config o) f)
         (setSlice setLayerInfo zeroLayerInfo) v old
    else (old, None)).

Definition setChecksum : json -> assetChecksum -> assetChecksum * option error :=
  setStruct (fun key v old =>
    if names key "sha1" then
      on Sha1 (fun f o => mkChecksum f (Sha256 o)) setString v old
    else if names key "sha256" then
      on Sha256 (fun f o => mkChecksum (Sha1 o) f) setString v old
    else (old, None)).

Definition zeroAsset : searchAsset := mkAsset "" "" "" "" "" (mkChecksum "" "").
Definition zeroItem : searchItem := mkItem "" "" "" None "" "" nilSlice.

Definition setAsset : json -> searchAsset -> searchAsset * option error :=
  setStruct (fun key v old =>
    if names key "downloadUrl" then
      on DownloadURL (fun f o => mkAsset f (Path o) (ID o) (AssetRepository o)
                                         (AssetFormat o) (Checksum o)) setString v old
    else if names key "path" then
      on Path (fun f o => mkAsset (DownloadURL o) f (ID o) (AssetRepository o)
                                  (AssetFormat o) (Checksum o)) setString v old
    else if names key "id" then
      on ID (fun f o => mkAsset (DownloadURL o) (Path o) f (AssetRepository o)
                                (AssetFormat o) (Checksum o)) setString v old
    else if names key "repository" then
      on AssetRepository (fun f o => mkAsset (DownloadURL o) (Path o) (ID o) f
                                             (AssetFormat o) (Checksum o)) setString v old
    else if names key "format" then
      on AssetFormat (fun f o => mkAsset (DownloadURL o) (Path o) (ID o)
                                         (AssetRepository o) f (Checksum o)) setString v old
    else if names key "checksum" then
      on Checksum (fun f o => mkAsset (DownloadURL o) (Path o) (ID o)
                                      (AssetRepository o) (AssetFormat o) f) setChecksum v old
    else (old, None)).

Definition setItem : json -> searchItem -> searchItem * option error :=
  setStruct (fun key v old =>
    if names key "id" then
      on ItemID (fun f o => mkItem f (ItemRepository o) (ItemFormat o) (Group o)
                                   (ItemName o) (Version o) (Assets o)) setString v old
    else if names key "repository" then
      on ItemRepository (fun f o => mkItem (ItemID o) f (ItemFormat o) (Group o)
                                           (ItemName o) (Version o) (Assets o)) setString v old
    else if names key "format" then
      on ItemFormat (fun f o => mkItem (ItemID o) (ItemRepository o) f (Group o)
                                       (ItemName o) (Version o) (Assets o)) setString v old
    else if names key "group" then
      on Group (fun f o => mkItem (ItemID o) (ItemRepository o) (ItemFormat o) f
                                  (ItemName o) (Version o) (Assets o)) setInterface v old
    else if names key "name" then
      on ItemName (fun f o => mkItem (ItemID o) (ItemRepository o) (ItemFormat o) (Group o)
                                     f (Version o) (Assets o)) setString v old
    else if names key "version" then
      on Version (fun f o => mkItem (ItemID o) (ItemRepository o) (ItemFormat o) (Group o)
                                    (ItemName o) f (Assets o)) setString v old
    else if names key "assets" then
      on Assets (fun f o => mkItem (ItemID o) (ItemRepository o) (ItemFormat o) (Group o)
                                   (ItemName o) (Version o) f)
         (setSlice setAsset zeroAsset) v old
    else (old, None)).

Definition setSearchAssets : json -> SearchAssets -> SearchAssets * option error :=
  setStruct (fun key v old =>
    if names key "items" then
      on Items (fun f o => mkSearchAssets f (ContinuationToken o))
         (setSlice setItem zeroItem) v old
    else if names key "continuationToken" then
      on ContinuationToken (fun f o => mkSearchAssets (Items o) f) setInterface v old
    else (old, None)).

(** [json.NewDecoder(body).Decode(&v)]: a body that is no JSON document is a
    syntax error and leaves [v] as it was. *)
Definition Decode {T} (set : json -> T -> T * option error) (b : body) (old : T)
  : T * option error :=
  match b with
  | NotJSON _ => (old, Some (jsonError "invalid character"))
  | Document doc => set doc old
  end.

(** *** time.Parse under the RFC 1123 layout *)

Definition timeError (value what : string) : error :=
  pkgError "time" ("parsing time " +:+ value +:+ what).

Definition shortDayNames : list string :=
  ["Sun"; "Mon"; "Tue"; "Wed"; "Thu"; "Fri"; "Sat"].
Definition shortMonthNames : list string :=
  ["Jan"; "Feb"; "Mar"; "Apr"; "May"; "Jun"; "Jul"; "Aug"; "Sep"; "Oct"; "Nov"; "Dec"].

Definition takeStr (n : nat) (s : string) : string := substring 0 n s.
Definition dropStr (n : nat) (s : string) : string := substring n (String.length s - n) s.

(** [lookup]: the index of the table entry the value starts with, letter
    case aside, and what follows it. *)
Fixpoint lookupName (tab : list string) (i : Z) (val : string) : option (Z * string) :=
  match tab with
  | [] => None
  | v :: tab' =>
      let n := String.length v in
      if (n <=? String.length val)%nat && bool_decide (foldCase (takeStr n val) = foldCase v)
      then Some (i, dropStr n val)
      else lookupName tab' (i + 1)%Z val
  end.

Fixpoint cutspace (s : string) : string :=
  match s with
  | String " " rest => cutspace rest
  | _ => s
  end.

(** [skip]: the literal text between two layout elements; a space of the
    layout stands for any run of spaces. *)
Fixpoint skip (value prefix : string) : option string :=
  match prefix with
  | "" => Some value
  | String " " prefix' =>
      match value with
      | "" => skip "" (cutspace prefix')
      | String " " _ => skip (cutspace value) (cutspace prefix')
      | _ => None
      end
  | String c prefix' =>
      match value with
      | String d value' => if bool_decide (c = d) then skip value' prefix' else None
      | "" => None
      end
  end.

(** [getnum]: one or two digits, exactly two when [fixed]. *)
Definition getnum (s : string) (fixed : bool) : option (Z * string) :=
  match s with
  | String a rest =>
      if isDigit a then
        match rest with
        | String b rest' =>
            if isDigit b then Some ((digitValue a * 10 + digitValue b)%Z, rest')
            else if fixed then None else Some (digitValue a, rest)
        | "" => if fixed then None else Some (digitValue a, rest)
        end
      else None
  | "" => None
  end.

Definition allDigits (s : string) : bool :=
  forallb isDigit (list_ascii_of_string s).

(** The four digits of the year. *)
Definition getyear (s : string) : option (Z * string) :=
  if (4 <=? String.length s)%nat && allDigits (takeStr 4 s)
  then Some (parseDigitRun 0 (takeStr 4 s), dropStr 4 s)
  else None.

Definition upperRun (s : string) : nat :=
  let fix go (n : nat) (s : string) : nat :=
    match n, s with
    | S n', String c rest => if isUpper c then S (go n' rest) else O
    | _, _ => O
    end in
  go 6%nat s.

(** [parseTimeZone] restricted to plain abbreviations: three upper-case
    letters, or four or five ending in T.  Signed offsets after GMT, numeric
    zones and fractional seconds, which Go accepts too, are not accepted
    here. *)
Definition getzone (s : string) : option (string * string) :=
  match upperRun s with
  | 3%nat => Some (takeStr 3 s, dropStr 3 s)
  | 4%nat =>
      if bool_decide (takeStr 1 (dropStr 3 s) = "T" ∨ takeStr 4 s = "WITA")
      then Some (takeStr 4 s, dropStr 4 s) else None
  | 5%nat =>
      if bool_decide (takeStr 1 (dropStr 4 s) = "T")
      then Some (takeStr 5 s, dropStr 5 s) else None
  | _ => None
  end.

Definition isLeap (year : Z) : bool :=
  ((year mod 4 =? 0) && (negb (year mod 100 =? 0) || (year mod 400 =? 0)))%Z.

Definition daysIn (month year : Z) : Z :=
  if (month =? 2)%Z then (if isLeap year then 29 else 28)%Z
  else if bool_decide (month ∈ [4; 6; 9; 11]%Z) then 30%Z else 31%Z.

(** Days from 1970-01-01 to the given civil date. *)
Definition daysFromCivil (year month day : Z) : Z :=
  let y := (if month <=? 2 then year - 1 else year)%Z in
  let era := (y / 400)%Z in
  let yoe := (y - era * 400)%Z in
  let mp := ((month + 9) mod 12)%Z in
  let doy := ((153 * mp + 2) / 5 + day - 1)%Z in
  let doe := (yoe * 365 + yoe / 4 - yoe / 100 + doy)%Z in
  (era * 146097 + doe - 719468)%Z.

(** The clock reading is taken as UTC.  With UTC as the local zone, an
    abbreviation other than UTC names a made-up zone of offset 0. *)
Definition parseRFC1123 (value : string) : Time + error :=
  let bad := inr (timeError value ": cannot parse") in
  match lookupName shortDayNames 0 value with
  | None => bad
  | Some (_, v1) =>
  match skip v1 ", " with
  | None => bad
  | Some v2 =>
  match getnum v2 true with
  | None => bad
  | Some (day, v3) =>
  match skip v3 " " with
  | None => bad
  | Some v4 =>
  match lookupName shortMonthNames 1 v4 with
  | None => bad
  | Some (month, v5) =>
  match skip v5 " " with
  | None => bad
  | Some v6 =>
  match getyear v6 with
  | None => bad
  | Some (year, v7) =>
  match skip v7 " " with
  | None => bad
  | Some v8 =>
  match getnum v8 false with
  | None => bad
  | Some (hour, v9) =>
  if (24 <=? hour)%Z then inr (timeError value ": hour out of range") else
  match skip v9 ":" with
  | None => bad
  | Some v10 =>
  match getnum v10 true with
  | None => bad
  | Some (min, v11) =>
  if (60 <=? min)%Z then inr (timeError value ": minute out of range") else
  match skip v11 ":" with
  | None => bad
  | Some v12 =>
  match getnum v12 true with
  | None => bad
  | Some (sec, v13) =>
  if (60 <=? sec)%Z then inr (timeError value ": second out of range") else
  match skip v13 " " with
  | None => bad
  | Some v14 =>
  match getzone v14 with
  | None => bad
  | Some (zone, v15) =>
  if negb (bool_decide (v15 = "")) then inr (timeError value ": extra text") else
  if ((day <? 1) || (daysIn month year <? day))%Z
  then inr (timeError value ": day out of range") else
  inl (mkTime (daysFromCivil year month day * 86400 + hour * 3600 + min * 60 + sec)%Z
              zone 0)
  end end end end end end end end end end end end end end end.

Definition Parse (layout value : string) : Time + error :=
  if bool_decide (layout = RFC1123) then parseRFC1123 value
  else inr (pkgError "time" "layout outside the reference environment").

(** *** sort.Sort: the insertion sort it runs on short slices *)

Fixpoint insertSorted (less : string -> string -> bool) (x : string) (l : list string)
  : list string :=
  match l with
  | [] => [x]
  | y :: l' => if less y x then y :: insertSorted less x l' else x :: l
  end.

Definition insertionSort (less : string -> string -> bool) (l : list string)
  : list string :=
  foldr (insertSorted less) [] l.

(** *** The remote side: a routing table *)

(** What the server answers to a method and a URL; anything else is a 404. *)
Definition routes := list (string * string * (Response + error)).

Definition notFound : Response := mkResponse 404 ∅ (NotJSON "").

Fixpoint serve (table : routes) (req : Request) : Response + error :=
  match table with
  | [] => inl notFound
  | (method, url, answer) :: table' =>
      if bool_decide (Method req = method ∧ URL req = url) then answer
      else serve table' req
  end.

Definition okJSON (doc : json) : Response + error :=
  inl (mkResponse 200 ∅ (Document doc)).

Definition status (code : Z) : Response + error :=
  inl (mkResponse code ∅ (NotJSON "")).

(** Wall-clock time: ten o'clock on 15 August 2023, one second later for
    every event since. *)
Definition clock (w : World) : Time :=
  mkTime (1692093600 + Z.of_nat (length w))%Z "UTC" 0.

Definition credentials : Registry :=
  mkRegistry "http://nexus" "admin" "secret" "docker".

Definition env (table : routes) : Env :=
  {| http_NewRequest_err := fun _ _ => None;
     client_Do := fun _ req => serve table req;
     Decode_repositories := Decode setRepositories;
     Decode_imageTags := Decode setImageTags;
     Decode_ImageManifest := Decode setImageManifest;
     Decode_SearchAssets := Decode setSearchAssets;
     time_Now := clock;
     time_Parse := Parse;
     os_Stat := fun _ => None;
     os_IsNotExist := fun _ => false;
     toml_DecodeFile := fun _ _ => (credentials, None);
     sort_Sort := insertionSort |}.

End Reference.

(** * The vocabulary of the statements *)

(** ** Requests and answers *)

(** The request every operation builds: method, URL, basic authentication
    from the credentials, one Accept header. *)
Definition clientRequest (r : Registry) (method url accept : string) : Request :=
  mkRequest method url (Some (Username r, Password r)) [("Accept", accept)].

Definition catalogURL (r : Registry) : string :=
  Host r +:+ "/repository/" +:+ Repository r +:+ "/v2/_catalog".
Definition tagsURL (r : Registry) (image : string) : string :=
  Host r +:+ "/repository/" +:+ Repository r +:+ "/v2/" +:+ image +:+ "/tags/list".
Definition manifestURL (r : Registry) (image tag : string) : string :=
  Host r +:+ "/repository/" +:+ Repository r +:+ "/v2/" +:+ image
    +:+ "/manifests/" +:+ tag.
Definition searchURL (r : Registry) (image tag : string) : string :=
  Host r +:+ "/service/rest/v1/search?repository=" +:+ Repository r
    +:+ "&name=" +:+ image +:+ "&version=" +:+ tag.
Definition assetURL (r : Registry) (assetId : string) : string :=
  Host r +:+ "/service/rest/v1/assets/" +:+ assetId.

Definition catalogRequest r := clientRequest r "GET" (catalogURL r) acceptHeader.
Definition tagsRequest r image := clientRequest r "GET" (tagsURL r image) acceptHeader.
Definition manifestRequest r image tag :=
  clientRequest r "GET" (manifestURL r image tag) acceptHeader.
Definition searchRequest r image tag :=
  clientRequest r "GET" (searchURL r image tag) acceptHeaderJson.
Definition deleteRequest r assetId :=
  clientRequest r "DELETE" (assetURL r assetId) acceptHeaderJson.

(** In world [w] the request can be built and the server answers it with
    [resp]. *)
Definition Answers (E : Env) (w : World) (req : Request) (resp : Response) : Prop :=
  http_NewRequest_err E (Method req) (URL req) = None ∧
  client_Do E w req = inl resp.

(** The status error of the read operations. *)
Definition httpCodeError (code : Z) : error :=
  errorString ("HTTP Code: " +:+ pretty code).

(** ** Bodies that do not decode *)

(** A server whose 200 answers carry a page of HTML instead of JSON. *)
Definition htmlAnswers : Reference.routes :=
  let page := inl (mkResponse 200 ∅ (NotJSON "<html>")) in
  [("GET", "http://nexus/repository/docker/v2/_catalog", page);
   ("GET", "http://nexus/repository/docker/v2/app/tags/list", page);
   ("GET", "http://nexus/repository/docker/v2/app/manifests/v1", page)].

(** A tag list whose [name] member is a number: the decoder stores the tags,
    then fails on the name. *)
Definition tagsThenBadName : json :=
  JObject [("tags", JArray [JString "v1"]); ("name", JNumber 5)].

(** ** Search results *)

(** A server that knows three tags of "app": v1 has no item, v2 has two
    items with assets, v3 has an item without assets. *)
Definition searchAnswers : Reference.routes :=
  let item (id : string) (assetIds : list string) :=
    JObject [("id", JString id);
             ("assets", JArray (map (fun a => JObject [("id", JString a)]) assetIds))] in
  [("GET", "http://nexus/service/rest/v1/search?repository=docker&name=app&version=v1",
    Reference.okJSON (JObject [("items", JArray [])]));
   ("GET", "http://nexus/service/rest/v1/search?repository=docker&name=app&version=v2",
    Reference.okJSON (JObject [("items", JArray [item "item-1" ["asset-7"; "asset-8"];
                                                 item "item-2" ["asset-9"]])]));
   ("GET", "http://nexus/service/rest/v1/search?repository=docker&name=app&version=v3",
    Reference.okJSON (JObject [("items", JArray [item "item-3" []])]));
   ("DELETE", "http://nexus/service/rest/v1/assets/asset-7", Reference.status 202)].

(** The response a routing table holds for a request. *)
Definition answerTo (table : Reference.routes) (req : Request) : Response :=
  match Reference.serve table req with
  | inl resp => resp
  | inr _ => Reference.notFound
  end.

(** ** Dated manifests *)

(** The manifest of app:v1 is answered with a last-modified header, that of
    app:v2 without one, that of app:v3 with a date that is not RFC 1123. *)
Definition datedAnswers : Reference.routes :=
  [("GET", "http://nexus/repository/docker/v2/app/manifests/v1",
    inl (mkResponse 200 {["Last-Modified" := ["Tue, 15 Aug 2023 10:00:00 GMT"]]}
                    (Document (JObject []))));
   ("GET", "http://nexus/repository/docker/v2/app/manifests/v2",
    inl (mkResponse 200 ∅ (Document (JObject []))));
   ("GET", "http://nexus/repository/docker/v2/app/manifests/v3",
    inl (mkResponse 200 {["Last-Modified" := ["2023-08-15T10:00:00Z"]]}
                    (Document (JObject []))))].

(** ** Digit runs *)

Fixpoint allChars (p : ascii → bool) (s : string) : bool :=
  match s with
  | "" => true
  | String c rest => p c && allChars p rest
  end.

Definition noDigit (s : string) : bool := allChars (fun c => negb (isDigit c)) s.
Definition onlyDigits (s : string) : bool := allChars isDigit s.

(** The string is empty or starts with a character that is no digit. *)
Definition endsDigitRun (s : string) : bool :=
  match s with
  | "" => true
  | String c _ => negb (isDigit c)
  end.

(** The value of a string of digits in base 10, digit by position. *)
Fixpoint decimalValue (ds : string) : Z :=
  match ds with
  | "" => 0
  | String c rest =>
      (digitValue c * 10 ^ Z.of_nat (String.length rest) + decimalValue rest)%Z
  end.

(** ** Layers and their sizes *)

Definition sumZ (l : list Z) : Z := foldr Z.add 0%Z l.

(** The size the table holds for digest [d] once the layers have been
    recorded in order: that of the last layer with this digest, or [before]
    when there is none. *)
Fixpoint recorded (layers : list layerInfo) (d : string) (before : option Z)
  : option Z :=
  match layers with
  | [] => before
  | layer :: layers' =>
      recorded layers' d (if decide (Digest layer = d) then Some (Size layer) else before)
  end.

Definition sizeOf (layers : list layerInfo) (d : string) : Z :=
  default 0%Z (recorded layers d None).

(** The layers of all manifests, in the order the loop sees them. *)
Definition allLayers (ms : list ImageManifest) : list layerInfo :=
  concat (map (fun m => elems (Layers m)) ms).

(** The digests that occur, each listed once. *)
Definition digests (layers : list layerInfo) : list string :=
  remove_dups (map Digest layers).

(** The registry returns the manifests [ms] for the tags, one request after
    the other, taking the world from [w] to [w']. *)
Inductive Fetched (E : Env) (r : Registry) (image : string)
  : list string → list ImageManifest → World → World → Prop :=
| Fetched_nil w : Fetched E r image [] [] w w
| Fetched_cons tag tags m ms w w1 w' :
    Registry_ImageManifest E r image tag w = (Returned (m, None), w1) →
    Fetched E r image tags ms w1 w' →
    Fetched E r image (tag :: tags) (m :: ms) w w'.

(** The command line [--name image], with an optional [--keep n]. *)
Definition commandLine (image tag : string) (keep : Z) : Context :=
  mkContext (fun flag => if bool_decide (flag = "name") then image
                         else if bool_decide (flag = "tag") then tag else "")
            (fun flag => if bool_decide (flag = "keep") then keep else 0%Z).

Definition layerDoc (digest : string) (size : Z) : json :=
  JObject [("mediaType", JString "application/vnd.docker.image.rootfs.diff.tar.gzip");
           ("size", JNumber size); ("digest", JString digest)].

(** Two tags of "app" that share the layer sha256:aa. *)
Definition sizeAnswers : Reference.routes :=
  [("GET", "http://nexus/repository/docker/v2/app/tags/list",
    Reference.okJSON (JObject [("name", JString "app");
                               ("tags", JArray [JString "v1"; JString "v2"])]));
   ("GET", "http://nexus/repository/docker/v2/app/manifests/v1",
    Reference.okJSON (JObject [("schemaVersion", JNumber 2);
                               ("layers", JArray [layerDoc "sha256:aa" 10;
                                                  layerDoc "sha256:bb" 20])]));
   ("GET", "http://nexus/repository/docker/v2/app/manifests/v2",
    Reference.okJSON (JObject [("schemaVersion", JNumber 2);
                               ("layers", JArray [layerDoc "sha256:aa" 10;
                                                  layerDoc "sha256:cc" 5])]))].

Definition layerOf (digest : string) (size : Z) : layerInfo :=
  mkLayerInfo "application/vnd.docker.image.rootfs.diff.tar.gzip" size digest.

Definition manifestOf (layers : list layerInfo) : ImageManifest :=
  mkImageManifest 2 "" zeroLayerInfo (mkSlice layers []).

(** ** Sorting and the retention loop *)

(** Ascending by extracted number. *)
Definition byNumber (a b : string) : Prop :=
  (extractNumberFromString a ≤ extractNumberFromString b)%Z.

(** What spec 4.2 asks of the generic sort under a comparator of the form
    [key a < key b]: the result holds the same strings and no string comes
    before one of smaller key.  Nothing is asked about the order of strings
    of equal key. *)
Definition SortContract (E : Env) : Prop :=
  ∀ (key : string → Z) (l : list string),
    sort_Sort E (fun a b => (key a <? key b)%Z) l ≡ₚ l ∧
    StronglySorted (fun a b => (key a ≤ key b)%Z)
                   (sort_Sort E (fun a b => (key a <? key b)%Z) l).

Definition willBeDeleted (image tag : string) : event :=
  Printf ("%s:%s image will be deleted ..." +:+ LF) [ArgS image; ArgS tag].


(** The loop of [deleteImage]. *)
Definition retentionLoop (E : Env) (r : Registry) (image : string)
    (oldest : list string) : M (unit + option error) :=
  forRange oldest (fun tag (_ : unit) =>
    emit (Printf ("%s:%s image will be deleted ..." +:+ LF)
                 [ArgS image; ArgS tag]) ;;;
    DeleteImageByTag E r image tag ;;;
    ret (inl tt : unit + option error)) tt.

(** Five tags of "app"; the search finds nothing for latest and one asset
    each for v1 and v2, which the server accepts to delete. *)
Definition foundAsset (assetId : string) : Response + error :=
  Reference.okJSON
    (JObject [("items", JArray [JObject [("assets",
                 JArray [JObject [("id", JString assetId)]])]])]).

Definition retentionAnswers : Reference.routes :=
  [("GET", "http://nexus/repository/docker/v2/app/tags/list",
    Reference.okJSON
      (JObject [("name", JString "app");
                ("tags", JArray [JString "v10"; JString "v2"; JString "v1";
                                 JString "latest"; JString "v3"])]));
   ("GET", "http://nexus/service/rest/v1/search?repository=docker&name=app&version=latest",
    Reference.okJSON (JObject [("items", JArray [])]));
   ("GET", "http://nexus/service/rest/v1/search?repository=docker&name=app&version=v1",
    foundAsset "a1");
   ("GET", "http://nexus/service/rest/v1/search?repository=docker&name=app&version=v2",
    foundAsset "a2");
   ("DELETE", "http://nexus/service/rest/v1/assets/a1", Reference.status 202);
   ("DELETE", "http://nexus/service/rest/v1/assets/a2", Reference.status 202)].

Definition noAssets (image tag : string) : event :=
  Printf ("No assets found for %s:%s" +:+ LF) [ArgS image; ArgS tag].
Definition deleted (image tag : string) : event :=
  Printf ("%s:%s has been successful deleted" +:+ LF) [ArgS image; ArgS tag].

(** ** A server that fails *)

(** Three tags of "app".  The search for v1 fails with status 500; v2 has
    the asset a2, which the server deletes; v3 has the asset a3, whose
    deletion the server refuses with status 500. *)
Definition failingAnswers : Reference.routes :=
  [("GET", "http://nexus/repository/docker/v2/app/tags/list",
    Reference.okJSON
      (JObject [("name", JString "app");
                ("tags", JArray [JString "v1"; JString "v2"; JString "v3"])]));
   ("GET", "http://nexus/service/rest/v1/search?repository=docker&name=app&version=v1",
    Reference.status 500);
   ("GET", "http://nexus/service/rest/v1/search?repository=docker&name=app&version=v2",
    foundAsset "a2");
   ("GET", "http://nexus/service/rest/v1/search?repository=docker&name=app&version=v3",
    foundAsset "a3");
   ("DELETE", "http://nexus/service/rest/v1/assets/a2", Reference.status 202);
   ("DELETE", "http://nexus/service/rest/v1/assets/a3", Reference.status 500)].

(** ** Traces of a run *)

(** Whatever the run of [m] adds to the trace satisfies [P], event by
    event, whether the run returns or panics. *)
Definition Emits {A} (P : event → Prop) (m : M A) : Prop :=
  ∀ w res w', m w = (res, w') → ∃ ext, w' = w ++ ext ∧ Forall P ext.

(** A condition on the requests among the events. *)
Definition OnlySends (P : Request → Prop) (e : event) : Prop :=
  match e with
  | Sent req => P req
  | _ => True
  end.

(** The requests that read from the registry. *)
Inductive ReadRequest (r : Registry) : Request → Prop :=
| ReadCatalog : ReadRequest r (catalogRequest r)
| ReadTags image : ReadRequest r (tagsRequest r image)
| ReadManifest image tag : ReadRequest r (manifestRequest r image tag)
| ReadSearch image tag : ReadRequest r (searchRequest r image tag).

(** The requests of the client: the reads, and the deletion of an asset. *)
Definition ClientRequest (r : Registry) (req : Request) : Prop :=
  ReadRequest r req ∨ ∃ assetId, req = deleteRequest r assetId.

(** The requests that deleting one tag may send. *)
Definition TagRequest (r : Registry) (image tag : string) (req : Request) : Prop :=
  req = searchRequest r image tag ∨ ∃ assetId, req = deleteRequest r assetId.

(** ** More environments *)

Definition isControl (c : ascii) : bool :=
  let n := nat_of_ascii c in (n <? 32)%nat || (n =? 127)%nat.

(** net/url refuses a URL that holds an ASCII control character. *)
Definition rejectControl (method url : string) : option error :=
  if existsb isControl (list_ascii_of_string url)
  then Some (pkgError "net/url" "invalid control character in URL")
  else None.

(** The reference environment with that check in [http.NewRequest]. *)
Definition checkingEnv (table : Reference.routes) : Env :=
  let E := Reference.env table in
  mkEnv rejectControl (client_Do E)
        (Decode_repositories E) (Decode_imageTags E) (Decode_ImageManifest E)
        (Decode_SearchAssets E) (time_Now E) (time_Parse E)
        (os_Stat E) (os_IsNotExist E) (toml_DecodeFile E) (sort_Sort E).

Definition noSuchFile : error :=
  pkgError "os" "stat .credentials: no such file or directory".

(** The reference environment on a machine without a credentials file. *)
Definition noCredentialsEnv (table : Reference.routes) : Env :=
  let E := Reference.env table in
  mkEnv (http_NewRequest_err E) (client_Do E)
        (Decode_repositories E) (Decode_imageTags E) (Decode_ImageManifest E)
        (Decode_SearchAssets E) (time_Now E) (time_Parse E)
        (fun _ => Some noSuchFile)
        (fun err => match err with Some _ => true | None => false end)
        (toml_DecodeFile E) (sort_Sort E).

(** ** One request per operation *)

(** The operation [m] is built around the one request [req]: when the
    request cannot be built, nothing is sent and the builder's error is
    returned with the data [failed]; otherwise exactly this request is sent
    and the operation returns, with the transport's error and the data
    [failed] when the transport fails. *)
Definition OneRequest {A} (E : Env) (req : Request) (failed : error → A) (m : M A)
  : Prop :=
  ∀ w,
    (∀ err, http_NewRequest_err E (Method req) (URL req) = Some err →
            m w = (Returned (failed err), w)) ∧
    (http_NewRequest_err E (Method req) (URL req) = None →
       (∃ a, m w = (Returned a, w ++ [Sent req])) ∧
       (∀ err, client_Do E w req = inr err →
               m w = (Returned (failed err), w ++ [Sent req]))).

(** A server that cannot be reached for the tags of "app". *)
Definition unreachable : error := pkgError "net/http" "connection refused".

Definition unreachableAnswers : Reference.routes :=
  [("GET", "http://nexus/repository/docker/v2/app/tags/list", inr unreachable)].

(** The error of a refused asset deletion. *)
Definition deleteFailedError (code : Z) (assetId image tag : string) : error :=
  errorString ("HTTP Code: " +:+ pretty code
                 +:+ ", Failed to delete image by assetId: " +:+ assetId
                 +:+ ", " +:+ image +:+ ":" +:+ tag).

(** A server that answers the deletion of asset a1 with 204 No Content. *)
Definition noContentAnswers : Reference.routes :=
  [("DELETE", "http://nexus/service/rest/v1/assets/a1", Reference.status 204);
   ("DELETE", "http://nexus/service/rest/v1/assets/a2", Reference.status 202)].

(** ** Digests *)

(** The status error of [getImageSHA]. *)
Definition shaFailedError (code : Z) : error :=
  errorString ("HTTP Code: " +:+ pretty code +:+ ", Failed to fetch image sha").

Definition cantFindSha : event := Printf "%v" [ArgS "Can't even find the sha"].

(** The manifest of app:v1 is answered with its digest in the header, that
    of app:v2 without the header; app:v3 cannot be reached. *)
Definition digestAnswers : Reference.routes :=
  [("GET", "http://nexus/repository/docker/v2/app/manifests/v1",
    inl (mkResponse 200 {["Docker-Content-Digest" := ["sha256:0123"]]}
                    (Document (JObject []))));
   ("GET", "http://nexus/repository/docker/v2/app/manifests/v2",
    inl (mkResponse 200 ∅ (Document (JObject []))));
   ("GET", "http://nexus/repository/docker/v2/app/manifests/v3", inr unreachable)].

(** ** Results and output of the commands *)

(** Whenever [m] returns, what it returns satisfies [Q]. *)
Definition Yields {A} (Q : A → Prop) (m : M A) : Prop :=
  ∀ w a w', m w = (Returned a, w') → Q a.

(** The error of a command that fails: an exit error with code 1. *)
Definition ExitsWith1 (result : option error) : Prop :=
  ∀ err, result = Some err → ∃ msg, err = ExitError msg 1.

(** The lines the commands print. *)
Definition line (s : string) : event := Printf ("%v" +:+ LF) [ArgS s].
Definition layerLine (layer : layerInfo) : event :=
  Printf (TAB +:+ "%s" +:+ TAB +:+ "%d" +:+ LF) [ArgS (Digest layer); ArgD (Size layer)].
Definition totalImages (n : Z) : event :=
  Printf ("Total images: %d" +:+ LF) [ArgD n].
Definition thereAre (n : Z) (image : string) : event :=
  Printf ("There are %d images for %s" +:+ LF) [ArgD n; ArgS image].

(** The requests of a retention run: the search for one of the tags picked
    for deletion, or the deletion of an asset. *)
Definition RetentionRequest (r : Registry) (image : string) (oldest : list string)
    (req : Request) : Prop :=
  (∃ tag, tag ∈ oldest ∧ req = searchRequest r image tag) ∨
  (∃ assetId, req = deleteRequest r assetId).

(** The registry lists three images. *)
Definition catalogAnswers : Reference.routes :=
  [("GET", "http://nexus/repository/docker/v2/_catalog",
    Reference.okJSON (JObject [("repositories",
       JArray [JString "app"; JString "db"; JString "proxy"])]))].

(** Three tags of "app"; the manifest of v2 cannot be fetched. *)
Definition brokenManifestAnswers : Reference.routes :=
  [("GET", "http://nexus/repository/docker/v2/app/tags/list",
    Reference.okJSON (JObject [("name", JString "app");
                               ("tags", JArray [JString "v1"; JString "v2"; JString "v3"])]));
   ("GET", "http://nexus/repository/docker/v2/app/manifests/v1",
    Reference.okJSON (JObject [("schemaVersion", JNumber 2);
                               ("layers", JArray [layerDoc "sha256:aa" 10])]));
   ("GET", "http://nexus/repository/docker/v2/app/manifests/v2", Reference.status 500);
   ("GET", "http://nexus/repository/docker/v2/app/manifests/v3",
    Reference.okJSON (JObject [("schemaVersion", JNumber 2);
                               ("layers", JArray [layerDoc "sha256:bb" 20])]))].

(** * Properties *)

(** ** What the client sends *)

Lemma append_empty (s : string) : s +:+ "" = s.
Proof.
  induction s as [|c s IH]; [done |].
  change (String c (s +:+ "") = String c s). by f_equal.
Qed.

Lemma formatArg_s s : formatArg "s" (ArgS s) = s.
Proof. reflexivity. Qed.

Lemma formatArg_d n : formatArg "d" (ArgD n) = pretty n.
Proof. reflexivity. Qed.

Lemma Errorf_http_code code :
  Errorf "HTTP Code: %d" [ArgD code] = httpCodeError code.
Proof.
  unfold Errorf, httpCodeError. f_equal. cbn [Sprintf].
  by rewrite formatArg_d, append_empty.
Qed.

Lemma Sprintf_catalog r :
  Sprintf "%s/repository/%s/v2/_catalog" [ArgS (Host r); ArgS (Repository r)]
  = catalogURL r.
Proof. reflexivity. Qed.

Lemma Sprintf_tags r image :
  Sprintf "%s/repository/%s/v2/%s/tags/list"
          [ArgS (Host r); ArgS (Repository r); ArgS image]
  = tagsURL r image.
Proof. reflexivity. Qed.

Lemma Sprintf_manifest r image tag :
  Sprintf "%s/repository/%s/v2/%s/manifests/%s"
          [ArgS (Host r); ArgS (Repository r); ArgS image; ArgS tag]
  = manifestURL r image tag.
Proof.
  unfold manifestURL. cbn [Sprintf]. rewrite !formatArg_s. by rewrite append_empty.
Qed.

Lemma Sprintf_search r image tag :
  Sprintf "%s/service/rest/v1/search?repository=%s&name=%s&version=%s"
          [ArgS (Host r); ArgS (Repository r); ArgS image; ArgS tag]
  = searchURL r image tag.
Proof.
  unfold searchURL. cbn [Sprintf]. rewrite !formatArg_s. by rewrite append_empty.
Qed.

Lemma Sprintf_asset r assetId :
  Sprintf "%s/service/rest/v1/assets/%s" [ArgS (Host r); ArgS assetId]
  = assetURL r assetId.
Proof.
  unfold assetURL. cbn [Sprintf]. rewrite !formatArg_s. by rewrite append_empty.
Qed.

Lemma httpCodeError_inj code code' :
  httpCodeError code = httpCodeError code' → code = code'.
Proof.
  unfold httpCodeError. intros H. injection H as H.
  by apply (inj pretty).
Qed.

Lemma bind_Returned {A B} (m : M A) (k : A → M B) w a w' :
  m w = (Returned a, w') → bind m k w = k a w'.
Proof. unfold bind. by intros ->. Qed.

Lemma bind_Panicked {A B} (m : M A) (k : A → M B) w msg w' :
  m w = (Panicked msg, w') → bind m k w = (Panicked msg, w').
Proof. unfold bind. by intros ->. Qed.

(** Unfolding one request-and-answer step of a client operation. *)
Ltac answered H :=
  let Hnew := fresh "Hnew" in
  let Hdo := fresh "Hdo" in
  destruct H as [Hnew Hdo]; cbn [Method URL clientRequest catalogRequest
    tagsRequest manifestRequest searchRequest deleteRequest] in Hnew;
  rewrite ?Sprintf_catalog, ?Sprintf_tags, ?Sprintf_manifest, ?Sprintf_search,
    ?Sprintf_asset;
  unfold NewRequest; rewrite Hnew;
  unfold bind at 1; unfold Do, SetBasicAuth, Header_Add;
  cbn [Method URL BasicAuth ReqHeader app];
  change (CanonicalMIMEHeaderKey "Accept") with "Accept";
  unfold catalogRequest, tagsRequest, manifestRequest, searchRequest,
    deleteRequest, clientRequest in Hdo |- *;
  rewrite Hdo.

(** ** Reads: status codes other than 200 *)

(** C4. When the server answers with a status code other than 200,
    [ListImages], [ListTagsByImage] and [Registry.ImageManifest] each return
    the error "HTTP Code: <status>" together with no data: the nil slice,
    or the zero manifest.  The status code can be read back from the error. *)
Theorem reads_fail_on_non_200 E r image tag w resp :
  StatusCode resp ≠ 200%Z →
  (Answers E w (catalogRequest r) resp →
     ListImages E r w
     = (Returned (nilSlice, Some (httpCodeError (StatusCode resp))),
        w ++ [Sent (catalogRequest r)])) ∧
  (Answers E w (tagsRequest r image) resp →
     ListTagsByImage E r image w
     = (Returned (nilSlice, Some (httpCodeError (StatusCode resp))),
        w ++ [Sent (tagsRequest r image)])) ∧
  (Answers E w (manifestRequest r image tag) resp →
     Registry_ImageManifest E r image tag w
     = (Returned (zeroImageManifest, Some (httpCodeError (StatusCode resp))),
        w ++ [Sent (manifestRequest r image tag)])) ∧
  (∀ code, httpCodeError code = httpCodeError (StatusCode resp) →
     code = StatusCode resp).
Proof.
  intros Hcode. split; [|split; [|split]].
  - intros H. unfold ListImages. answered H.
    rewrite bool_decide_eq_true_2 by done.
    by rewrite Errorf_http_code.
  - intros H. unfold ListTagsByImage. answered H.
    rewrite bool_decide_eq_true_2 by done.
    by rewrite Errorf_http_code.
  - intros H. unfold Registry_ImageManifest. answered H.
    rewrite bool_decide_eq_true_2 by done.
    by rewrite Errorf_http_code.
  - intros code. apply httpCodeError_inj.
Qed.

Lemma reads_fail_on_non_200_witness :
  let E := Reference.env [] in
  let r := Reference.credentials in
  StatusCode Reference.notFound ≠ 200%Z ∧
  ListImages E r []
  = (Returned (nilSlice, Some (errorString "HTTP Code: 404")),
     [Sent (catalogRequest r)]) ∧
  ListTagsByImage E r "app" []
  = (Returned (nilSlice, Some (errorString "HTTP Code: 404")),
     [Sent (tagsRequest r "app")]) ∧
  Registry_ImageManifest E r "app" "v1" []
  = (Returned (zeroImageManifest, Some (errorString "HTTP Code: 404")),
     [Sent (manifestRequest r "app" "v1")]).
Proof.
  intros E r.
  assert (Hcode : StatusCode Reference.notFound ≠ 200%Z) by (cbn; lia).
  destruct (reads_fail_on_non_200 E r "app" "v1" [] Reference.notFound Hcode)
    as (Himages & Htags & Hmanifest & _).
  split; [exact Hcode |].
  split; [apply Himages; split; reflexivity |].
  split; [apply Htags; split; reflexivity |].
  apply Hmanifest; split; reflexivity.
Defined.

(** ** Reads: a 200 answer whose body does not decode *)

(** C2, as the code has it.  On a 200 answer the three read operations
    never report an error, whatever the decoder reports (in particular when
    it reports a failure).  They return what the decoder left in the
    zero-initialised result: the zero value when the decoder stored nothing
    before failing, and otherwise whatever it stored. *)
Theorem reads_swallow_decode_errors E r image tag w resp :
  StatusCode resp = 200%Z →
  (Answers E w (catalogRequest r) resp →
     ListImages E r w
     = (Returned (Images (fst (Decode_repositories E (Body resp) zeroRepositories)),
                  None),
        w ++ [Sent (catalogRequest r)])) ∧
  (Answers E w (tagsRequest r image) resp →
     ListTagsByImage E r image w
     = (Returned (Tags (fst (Decode_imageTags E (Body resp) zeroImageTags)), None),
        w ++ [Sent (tagsRequest r image)])) ∧
  (Answers E w (manifestRequest r image tag) resp →
     Registry_ImageManifest E r image tag w
     = (Returned (fst (Decode_ImageManifest E (Body resp) zeroImageManifest), None),
        w ++ [Sent (manifestRequest r image tag)])) ∧
  (Answers E w (catalogRequest r) resp →
   fst (Decode_repositories E (Body resp) zeroRepositories) = zeroRepositories →
     ListImages E r w
     = (Returned (nilSlice, None), w ++ [Sent (catalogRequest r)])) ∧
  (Answers E w (tagsRequest r image) resp →
   fst (Decode_imageTags E (Body resp) zeroImageTags) = zeroImageTags →
     ListTagsByImage E r image w
     = (Returned (nilSlice, None), w ++ [Sent (tagsRequest r image)])) ∧
  (Answers E w (manifestRequest r image tag) resp →
   fst (Decode_ImageManifest E (Body resp) zeroImageManifest) = zeroImageManifest →
     Registry_ImageManifest E r image tag w
     = (Returned (zeroImageManifest, None),
        w ++ [Sent (manifestRequest r image tag)])).
Proof.
  intros Hcode.
  assert (Hok : bool_decide (StatusCode resp ≠ 200%Z) = false)
    by (apply bool_decide_eq_false_2; intros Hne; by apply Hne).
  assert (H1 : Answers E w (catalogRequest r) resp →
     ListImages E r w
     = (Returned (Images (fst (Decode_repositories E (Body resp) zeroRepositories)),
                  None),
        w ++ [Sent (catalogRequest r)])).
  { intros H. unfold ListImages. answered H. by rewrite Hok. }
  assert (H2 : Answers E w (tagsRequest r image) resp →
     ListTagsByImage E r image w
     = (Returned (Tags (fst (Decode_imageTags E (Body resp) zeroImageTags)), None),
        w ++ [Sent (tagsRequest r image)])).
  { intros H. unfold ListTagsByImage. answered H. by rewrite Hok. }
  assert (H3 : Answers E w (manifestRequest r image tag) resp →
     Registry_ImageManifest E r image tag w
     = (Returned (fst (Decode_ImageManifest E (Body resp) zeroImageManifest), None),
        w ++ [Sent (manifestRequest r image tag)])).
  { intros H. unfold Registry_ImageManifest. answered H. by rewrite Hok. }
  split; [exact H1 |]. split; [exact H2 |]. split; [exact H3 |].
  split; [| split].
  - intros H Hzero. rewrite (H1 H), Hzero. reflexivity.
  - intros H Hzero. rewrite (H2 H), Hzero. reflexivity.
  - intros H Hzero. rewrite (H3 H), Hzero. reflexivity.
Qed.

Lemma reads_swallow_decode_errors_witness :
  let E := Reference.env htmlAnswers in
  let r := Reference.credentials in
  let page := mkResponse 200 ∅ (NotJSON "<html>") in
  StatusCode page = 200%Z ∧
  is_Some (snd (Decode_repositories E (Body page) zeroRepositories)) ∧
  ListImages E r [] = (Returned (nilSlice, None), [Sent (catalogRequest r)]) ∧
  ListTagsByImage E r "app" []
  = (Returned (nilSlice, None), [Sent (tagsRequest r "app")]) ∧
  Registry_ImageManifest E r "app" "v1" []
  = (Returned (zeroImageManifest, None), [Sent (manifestRequest r "app" "v1")]).
Proof.
  intros E r page.
  assert (Hcode : StatusCode page = 200%Z) by reflexivity.
  destruct (reads_swallow_decode_errors E r "app" "v1" [] page Hcode)
    as (_ & _ & _ & Himages & Htags & Hmanifest).
  split; [exact Hcode |].
  split; [eexists; reflexivity |].
  split; [apply Himages; [split |]; reflexivity |].
  split; [apply Htags; [split |]; reflexivity |].
  apply Hmanifest; [split |]; reflexivity.
Defined.

(** C2 as stated fails: the body below does not decode (the decoder reports
    an error), yet [ListTagsByImage] returns the tag the decoder had already
    stored, not a zero-valued result. *)
Lemma decode_failure_can_leave_data :
  ¬ (∀ E r image w resp,
       StatusCode resp = 200%Z →
       Answers E w (tagsRequest r image) resp →
       is_Some (snd (Decode_imageTags E (Body resp) zeroImageTags)) →
       ListTagsByImage E r image w
       = (Returned (nilSlice, None), w ++ [Sent (tagsRequest r image)])).
Proof.
  intros Hclaim.
  pose (table := [("GET", "http://nexus/repository/docker/v2/app/tags/list",
                   Reference.okJSON tagsThenBadName)] : Reference.routes).
  specialize (Hclaim (Reference.env table) Reference.credentials "app" []
                     (mkResponse 200 ∅ (Document tagsThenBadName))).
  assert (Hrun : ListTagsByImage (Reference.env table) Reference.credentials "app" []
                 = (Returned (mkSlice ["v1"] [], None),
                    [Sent (tagsRequest Reference.credentials "app")]))
    by reflexivity.
  rewrite Hrun in Hclaim.
  assert (Hnil : (Returned (mkSlice ["v1"] [], @None error),
                  [Sent (tagsRequest Reference.credentials "app")])
                 = (Returned (nilSlice, None),
                    [] ++ [Sent (tagsRequest Reference.credentials "app")])).
  { apply Hclaim; [reflexivity | split; reflexivity | eexists; reflexivity]. }
  discriminate Hnil.
Qed.

(** The reference decoders leave the result untouched when the body is not
    JSON at all, so such a body does yield the zero value. *)
Example not_json_yields_zero raw :
  fst (Reference.Decode Reference.setImageTags (NotJSON raw) zeroImageTags)
  = zeroImageTags.
Proof. reflexivity. Qed.

(** ** Deleting one tag *)

(** [DeleteImageByTagByAssetId] never panics, and sends at most the one
    DELETE request for the asset. *)
Lemma DeleteImageByTagByAssetId_returns E r assetId image tag w :
  ∃ err w',
    DeleteImageByTagByAssetId E r assetId image tag w = (Returned err, w') ∧
    (w' = w ∨ w' = w ++ [Sent (deleteRequest r assetId)]) ∧
    (http_NewRequest_err E "DELETE" (assetURL r assetId) = None →
     w' = w ++ [Sent (deleteRequest r assetId)]).
Proof.
  unfold DeleteImageByTagByAssetId. rewrite Sprintf_asset.
  unfold NewRequest.
  destruct (http_NewRequest_err E "DELETE" (assetURL r assetId)) as [e|] eqn:Hnew.
  - exists (Some e), w. split; [done |]. split; [by left | done].
  - unfold bind, Do, SetBasicAuth, Header_Add.
    cbn [Method URL BasicAuth ReqHeader app].
    change (CanonicalMIMEHeaderKey "Accept") with "Accept".
    fold (clientRequest r "DELETE" (assetURL r assetId) acceptHeaderJson).
    fold (deleteRequest r assetId).
    destruct (client_Do E w (deleteRequest r assetId)) as [resp|e].
    + destruct (bool_decide (StatusCode resp ≠ 202%Z));
        eexists _, _; (split; [reflexivity |]); split; [by right | done | by right | done].
    + eexists _, _. split; [reflexivity |]. split; [by right | done].
Qed.

(** What [Registry.SearchAssets] returns on a 200 answer. *)
Lemma Registry_SearchAssets_200 E r image tag w resp :
  Answers E w (searchRequest r image tag) resp →
  StatusCode resp = 200%Z →
  Registry_SearchAssets E r image tag w
  = (Returned (fst (Decode_SearchAssets E (Body resp) zeroSearchAssets), None),
     w ++ [Sent (searchRequest r image tag)]).
Proof.
  intros H Hcode. unfold Registry_SearchAssets. answered H.
  rewrite bool_decide_eq_false_2; [done |]. intros Hne. by apply Hne.
Qed.

(** [DeleteImageByTag] after a search that was answered with status 200, by
    cases on what the search found. *)
Lemma DeleteImageByTag_found E r image tag w resp :
  Answers E w (searchRequest r image tag) resp →
  StatusCode resp = 200%Z →
  let found := fst (Decode_SearchAssets E (Body resp) zeroSearchAssets) in
  let w1 := w ++ [Sent (searchRequest r image tag)] in
  DeleteImageByTag E r image tag w
  = match elems (Items found) with
    | [] =>
        (Returned None,
         w1 ++ [Printf ("No assets found for %s:%s" +:+ LF) [ArgS image; ArgS tag]])
    | item0 :: _ =>
        match elems (Assets item0) with
        | [] =>
            (Panicked "runtime error: index out of range [0] with length 0", w1)
        | asset0 :: _ =>
            (Returned None,
             snd (DeleteImageByTagByAssetId E r (ID asset0) image tag w1)
               ++ [Printf ("%s:%s has been successful deleted" +:+ LF)
                          [ArgS image; ArgS tag]])
        end
    end.
Proof.
  intros H Hcode found w1.
  unfold DeleteImageByTag.
  rewrite (bind_Returned _ _ _ _ _ (Registry_SearchAssets_200 E r image tag w resp H Hcode)).
  cbn [fst snd]. fold found. fold w1.
  unfold len. destruct (elems (Items found)) as [|item0 items] eqn:Hitems.
  - rewrite bool_decide_eq_false_2 by (cbn; lia). reflexivity.
  - rewrite bool_decide_eq_true_2 by (cbn [length]; lia).
    unfold index0 at 1. rewrite Hitems. cbn [lookup list_lookup].
    unfold bind at 1. unfold bind at 1. unfold ret at 1.
    unfold index0, len. destruct (elems (Assets item0)) as [|asset0 assets].
    + reflexivity.
    + cbn [lookup list_lookup]. unfold bind at 1. unfold ret at 1.
      destruct (DeleteImageByTagByAssetId_returns E r (ID asset0) image tag w1)
        as (err & w2 & Hrun & _).
      unfold bind at 1. rewrite Hrun. reflexivity.
Qed.



(** C9. After a search answered with status 200 whose first item has an
    empty asset list, [DeleteImageByTag] panics on [Items[0].Assets[0]]:
    the guard looked at the length of [Items] only.  Nothing is deleted and
    nothing is printed. *)
Theorem DeleteImageByTag_panics_without_assets E r image tag w resp item0 items :
  Answers E w (searchRequest r image tag) resp →
  StatusCode resp = 200%Z →
  elems (Items (fst (Decode_SearchAssets E (Body resp) zeroSearchAssets)))
  = item0 :: items →
  elems (Assets item0) = [] →
  DeleteImageByTag E r image tag w
  = (Panicked "runtime error: index out of range [0] with length 0",
     w ++ [Sent (searchRequest r image tag)]).
Proof.
  intros H Hcode Hitems Hassets.
  pose proof (DeleteImageByTag_found E r image tag w resp H Hcode) as Hrun.
  cbv zeta in Hrun. by rewrite Hrun, Hitems, Hassets.
Qed.

Lemma DeleteImageByTag_panics_without_assets_witness :
  let E := Reference.env searchAnswers in
  let r := Reference.credentials in
  DeleteImageByTag E r "app" "v3" []
  = (Panicked "runtime error: index out of range [0] with length 0",
     [Sent (searchRequest r "app" "v3")]).
Proof.
  intros E r.
  assert (Ha : Answers E [] (searchRequest r "app" "v3")
                 (answerTo searchAnswers (searchRequest r "app" "v3")))
    by (split; reflexivity).
  exact (DeleteImageByTag_panics_without_assets E r "app" "v3" [] _ _ _
           Ha eq_refl eq_refl eq_refl).
Defined.

(** ** The date of a tag *)

(** A header that is absent reads as the empty string. *)
Lemma Header_Get_missing (h : gmap string (list string)) (key : string) :
  h !! CanonicalMIMEHeaderKey key = None → Header_Get h key = "".
Proof. unfold Header_Get. by intros ->. Qed.

(** C7. On a 200 answer [GetImageTagDate] hands the value of the
    last-modified header to [time.Parse] under the layout [time.RFC1123]:
    when the parser accepts it, the parsed time is returned with no error;
    when the parser rejects it, the parser's error is returned.  A missing
    header reads as the empty string, so the call fails whenever the parser
    rejects the empty string. *)
Theorem GetImageTagDate_parses_last_modified E r image tag w resp :
  Answers E w (manifestRequest r image tag) resp →
  StatusCode resp = 200%Z →
  let w1 := w ++ [Sent (manifestRequest r image tag)] in
  RFC1123 = "Mon, 02 Jan 2006 15:04:05 MST" ∧
  (∀ t, time_Parse E RFC1123 (Header_Get (Header resp) "last-modified") = inl t →
     GetImageTagDate E r image tag w = (Returned (t, None), w1)) ∧
  (∀ err, time_Parse E RFC1123 (Header_Get (Header resp) "last-modified") = inr err →
     GetImageTagDate E r image tag w = (Returned (time_Now E w1, Some err), w1)) ∧
  (∀ err, Header resp !! "Last-Modified" = None →
     time_Parse E RFC1123 "" = inr err →
     GetImageTagDate E r image tag w = (Returned (time_Now E w1, Some err), w1)).
Proof.
  intros H Hcode w1.
  assert (Hok : bool_decide (StatusCode resp ≠ 200%Z) = false)
    by (apply bool_decide_eq_false_2; intros Hne; by apply Hne).
  assert (Hrun : GetImageTagDate E r image tag w
    = match time_Parse E RFC1123 (Header_Get (Header resp) "last-modified") with
      | inr err => (Returned (time_Now E w1, Some err), w1)
      | inl t => (Returned (t, None), w1)
      end).
  { unfold GetImageTagDate. answered H. rewrite Hok.
    by destruct (time_Parse E RFC1123 (Header_Get (Header resp) "last-modified")). }
  split; [reflexivity |]. split; [| split].
  - intros t Hparse. by rewrite Hrun, Hparse.
  - intros err Hparse. by rewrite Hrun, Hparse.
  - intros err Hmissing Hparse.
    rewrite Hrun, (Header_Get_missing (Header resp) "last-modified" Hmissing).
    by rewrite Hparse.
Qed.

Lemma GetImageTagDate_parses_last_modified_witness :
  let E := Reference.env datedAnswers in
  let r := Reference.credentials in
  GetImageTagDate E r "app" "v1" []
  = (Returned (mkTime 1692093600 "GMT" 0, None), [Sent (manifestRequest r "app" "v1")]) ∧
  GetImageTagDate E r "app" "v2" []
  = (Returned (mkTime 1692093601 "UTC" 0,
               Some (pkgError "time" "parsing time : cannot parse")),
     [Sent (manifestRequest r "app" "v2")]) ∧
  GetImageTagDate E r "app" "v3" []
  = (Returned (mkTime 1692093601 "UTC" 0,
               Some (pkgError "time" "parsing time 2023-08-15T10:00:00Z: cannot parse")),
     [Sent (manifestRequest r "app" "v3")]).
Proof.
  intros E r. split; [| split].
  - assert (Ha : Answers E [] (manifestRequest r "app" "v1")
                   (answerTo datedAnswers (manifestRequest r "app" "v1")))
      by (split; vm_compute; reflexivity).
    assert (Hc : StatusCode (answerTo datedAnswers (manifestRequest r "app" "v1"))
                 = 200%Z) by (vm_compute; reflexivity).
    destruct (GetImageTagDate_parses_last_modified E r "app" "v1" [] _ Ha Hc)
      as (_ & Hparsed & _).
    apply Hparsed. vm_compute. reflexivity.
  - assert (Ha : Answers E [] (manifestRequest r "app" "v2")
                   (answerTo datedAnswers (manifestRequest r "app" "v2")))
      by (split; vm_compute; reflexivity).
    assert (Hc : StatusCode (answerTo datedAnswers (manifestRequest r "app" "v2"))
                 = 200%Z) by (vm_compute; reflexivity).
    destruct (GetImageTagDate_parses_last_modified E r "app" "v2" [] _ Ha Hc)
      as (_ & _ & _ & Hmissing).
    apply Hmissing; vm_compute; reflexivity.
  - assert (Ha : Answers E [] (manifestRequest r "app" "v3")
                   (answerTo datedAnswers (manifestRequest r "app" "v3")))
      by (split; vm_compute; reflexivity).
    assert (Hc : StatusCode (answerTo datedAnswers (manifestRequest r "app" "v3"))
                 = 200%Z) by (vm_compute; reflexivity).
    destruct (GetImageTagDate_parses_last_modified E r "app" "v3" [] _ Ha Hc)
      as (_ & _ & Hrejected & _).
    apply Hrejected. vm_compute. reflexivity.
Defined.

(** C10. Whenever [GetImageTagDate] returns an error, the time returned with
    it is the reading of the wall clock at that moment ([time.Now()]): on a
    request that cannot be built, on a transport error, on a status other
    than 200, and on a header that does not parse. *)
Theorem GetImageTagDate_error_time_is_now E r image tag w :
  let req := manifestRequest r image tag in
  let w1 := w ++ [Sent req] in
  (∀ err, http_NewRequest_err E "GET" (manifestURL r image tag) = Some err →
     GetImageTagDate E r image tag w = (Returned (time_Now E w, Some err), w)) ∧
  (∀ err, http_NewRequest_err E "GET" (manifestURL r image tag) = None →
     client_Do E w req = inr err →
     GetImageTagDate E r image tag w = (Returned (time_Now E w1, Some err), w1)) ∧
  (∀ resp, Answers E w req resp → StatusCode resp ≠ 200%Z →
     GetImageTagDate E r image tag w
     = (Returned (time_Now E w1, Some (httpCodeError (StatusCode resp))), w1)) ∧
  (∀ resp err, Answers E w req resp → StatusCode resp = 200%Z →
     time_Parse E RFC1123 (Header_Get (Header resp) "last-modified") = inr err →
     GetImageTagDate E r image tag w = (Returned (time_Now E w1, Some err), w1)) ∧
  (∀ t err w', GetImageTagDate E r image tag w = (Returned (t, Some err), w') →
     t = time_Now E w').
Proof.
  intros req w1.
  assert (Hrun : GetImageTagDate E r image tag w
    = match http_NewRequest_err E "GET" (manifestURL r image tag) with
      | Some err => (Returned (time_Now E w, Some err), w)
      | None =>
          match client_Do E w req with
          | inr err => (Returned (time_Now E w1, Some err), w1)
          | inl resp =>
              if bool_decide (StatusCode resp ≠ 200%Z) then
                (Returned (time_Now E w1, Some (httpCodeError (StatusCode resp))), w1)
              else
                match time_Parse E RFC1123 (Header_Get (Header resp) "last-modified") with
                | inr err => (Returned (time_Now E w1, Some err), w1)
                | inl t => (Returned (t, None), w1)
                end
          end
      end).
  { unfold GetImageTagDate. rewrite Sprintf_manifest. unfold NewRequest.
    destruct (http_NewRequest_err E "GET" (manifestURL r image tag)); [reflexivity |].
    unfold bind at 1. unfold Do, SetBasicAuth, Header_Add.
    cbn [Method URL BasicAuth ReqHeader app].
    change (CanonicalMIMEHeaderKey "Accept") with "Accept".
    fold (clientRequest r "GET" (manifestURL r image tag) acceptHeader).
    fold (manifestRequest r image tag). fold req. fold w1.
    destruct (client_Do E w req) as [resp|err]; [| reflexivity].
    destruct (bool_decide (StatusCode resp ≠ 200%Z)).
    - by rewrite Errorf_http_code.
    - by destruct (time_Parse E RFC1123 (Header_Get (Header resp) "last-modified")). }
  split; [| split; [| split; [| split]]].
  - intros err Hnew. by rewrite Hrun, Hnew.
  - intros err Hnew Hdo. by rewrite Hrun, Hnew, Hdo.
  - intros resp [Hnew Hdo] Hcode. cbn in Hnew. rewrite Hrun, Hnew, Hdo.
    by rewrite bool_decide_eq_true_2.
  - intros resp err [Hnew Hdo] Hcode Hparse. cbn in Hnew. rewrite Hrun, Hnew, Hdo.
    rewrite bool_decide_eq_false_2 by (intros Hne; by apply Hne).
    by rewrite Hparse.
  - intros t err w'. rewrite Hrun.
    destruct (http_NewRequest_err E "GET" (manifestURL r image tag)).
    { intros [= <- _ <-]. reflexivity. }
    destruct (client_Do E w req) as [resp|e].
    2: { intros [= <- _ <-]. reflexivity. }
    destruct (bool_decide (StatusCode resp ≠ 200%Z)).
    { intros [= <- _ <-]. reflexivity. }
    destruct (time_Parse E RFC1123 (Header_Get (Header resp) "last-modified")).
    { intros [=]. }
    intros [= <- _ <-]. reflexivity.
Qed.

Lemma GetImageTagDate_error_time_is_now_witness :
  let E := Reference.env [] in
  let r := Reference.credentials in
  GetImageTagDate E r "app" "v1" []
  = (Returned (mkTime 1692093601 "UTC" 0, Some (errorString "HTTP Code: 404")),
     [Sent (manifestRequest r "app" "v1")]) ∧
  mkTime 1692093601 "UTC" 0 = time_Now E [Sent (manifestRequest r "app" "v1")].
Proof.
  intros E r.
  destruct (GetImageTagDate_error_time_is_now E r "app" "v1" [])
    as (_ & _ & Hstatus & _ & Hany).
  assert (Ha : Answers E [] (manifestRequest r "app" "v1") Reference.notFound)
    by (split; vm_compute; reflexivity).
  assert (Hc : StatusCode Reference.notFound ≠ 200%Z) by (cbn; lia).
  pose proof (Hstatus _ Ha Hc) as Hrun.
  split; [exact Hrun |].
  exact (Hany _ _ _ Hrun).
Defined.

(** ** The number in a tag *)

Lemma append_cons c (s t : string) : String c s +:+ t = String c (s +:+ t).
Proof. reflexivity. Qed.

Lemma fromFirstDigit_skips pre s :
  noDigit pre = true → fromFirstDigit (pre +:+ s) = fromFirstDigit s.
Proof.
  induction pre as [|c pre IH]; [done |].
  cbn [noDigit allChars]. intros [Hc Hpre]%andb_prop.
  rewrite append_cons. cbn [fromFirstDigit].
  apply negb_true_iff in Hc. rewrite Hc. by apply IH.
Qed.

Lemma fromFirstDigit_noDigit s : noDigit s = true → fromFirstDigit s = "".
Proof.
  intros H. rewrite <- (append_empty s). by rewrite fromFirstDigit_skips.
Qed.

Lemma fromFirstDigit_at_digit ds s :
  onlyDigits ds = true → ds ≠ "" → fromFirstDigit (ds +:+ s) = ds +:+ s.
Proof.
  destruct ds as [|c ds]; [done |].
  cbn [onlyDigits allChars]. intros [Hc _]%andb_prop _.
  rewrite append_cons. cbn [fromFirstDigit]. by rewrite Hc.
Qed.

Lemma parseDigitRun_run ds post acc :
  onlyDigits ds = true → endsDigitRun post = true →
  parseDigitRun acc (ds +:+ post)
  = (acc * 10 ^ Z.of_nat (String.length ds) + decimalValue ds)%Z.
Proof.
  revert acc. induction ds as [|c ds IH]; intros acc Hds Hpost.
  - change ("" +:+ post) with post. cbn [String.length decimalValue].
    destruct post as [|d post]; cbn [parseDigitRun].
    + lia.
    + cbn [endsDigitRun] in Hpost. apply negb_true_iff in Hpost.
      rewrite Hpost. lia.
  - cbn [onlyDigits allChars] in Hds. apply andb_prop in Hds as [Hc Hds].
    rewrite append_cons. cbn [parseDigitRun]. rewrite Hc.
    rewrite IH by done. cbn [String.length decimalValue].
    rewrite Nat2Z.inj_succ, Z.pow_succ_r by lia. lia.
Qed.

(** C6. [extractNumberFromString] is 0 on a string without digit
    characters, and otherwise the base-10 value of the first contiguous run
    of digits: for a string made of a digit-free prefix, a non-empty run of
    digits, and a rest that does not continue the run, it is the value of the
    run.  On the three tags of the specification it is 104, 0 and 2. *)
Theorem extractNumber_first_digit_run :
  (∀ s, noDigit s = true → extractNumberFromString s = 0%Z) ∧
  (∀ pre ds post,
     noDigit pre = true → onlyDigits ds = true → ds ≠ "" →
     endsDigitRun post = true →
     extractNumberFromString (pre +:+ ds +:+ post) = decimalValue ds) ∧
  extractNumberFromString "release-104-build" = 104%Z ∧
  extractNumberFromString "latest" = 0%Z ∧
  extractNumberFromString "v2-rc1" = 2%Z.
Proof.
  split; [| split; [| by vm_compute]].
  - intros s Hs. unfold extractNumberFromString.
    by rewrite fromFirstDigit_noDigit.
  - intros pre ds post Hpre Hds Hne Hpost. unfold extractNumberFromString.
    rewrite fromFirstDigit_skips, fromFirstDigit_at_digit by done.
    rewrite parseDigitRun_run by done. lia.
Qed.

(** Every string splits in this way, so the two cases above cover all
    inputs. *)
Lemma digit_run_split s :
  noDigit s = true ∨
  ∃ pre ds post,
    s = pre +:+ ds +:+ post ∧ noDigit pre = true ∧ onlyDigits ds = true ∧
    ds ≠ "" ∧ endsDigitRun post = true.
Proof.
  assert (Hrun : ∀ t, ∃ ds post,
            t = ds +:+ post ∧ onlyDigits ds = true ∧ endsDigitRun post = true).
  { induction t as [|c t (ds & post & -> & Hds & Hpost)].
    - by exists "", "".
    - destruct (isDigit c) eqn:Hc.
      + exists (String c ds), post. split; [done |]. split; [| done].
        cbn [onlyDigits allChars]. by rewrite Hc.
      + exists "", (String c (ds +:+ post)). split; [done |]. split; [done |].
        cbn [endsDigitRun]. by rewrite Hc. }
  induction s as [|c s IH]; [by left |].
  destruct (isDigit c) eqn:Hc.
  - right. destruct (Hrun s) as (ds & post & -> & Hds & Hpost).
    exists "", (String c ds), post. split; [done |]. split; [done |].
    split; [| done]. cbn [onlyDigits allChars]. by rewrite Hc.
  - destruct IH as [Hs | (pre & ds & post & -> & Hpre & Hds & Hne & Hpost)].
    + left. cbn [noDigit allChars]. by rewrite Hc.
    + right. exists (String c pre), ds, post. split; [done |].
      split; [| done]. cbn [noDigit allChars]. by rewrite Hc.
Qed.

Lemma extractNumber_first_digit_run_witness :
  extractNumberFromString ("release-" +:+ "104" +:+ "-build") = decimalValue "104" ∧
  decimalValue "104" = 104%Z ∧
  extractNumberFromString "latest" = 0%Z.
Proof.
  destruct extractNumber_first_digit_run as (Hnone & Hrun & _).
  split; [apply Hrun; done |]. split; [reflexivity |].
  apply Hnone. reflexivity.
Defined.

(** ** The total size of an image *)

Lemma wrap64_add_l a b : wrap64 (wrap64 a + b) = wrap64 (a + b).
Proof.
  unfold wrap64. f_equal.
  replace ((a + 2 ^ 63) `mod` 2 ^ 64 - 2 ^ 63 + b + 2 ^ 63)%Z
    with ((a + 2 ^ 63) `mod` 2 ^ 64 + b)%Z by lia.
  rewrite Z.add_mod_idemp_l by lia. f_equal. lia.
Qed.

Lemma wrap64_small z : (- 2 ^ 63 ≤ z < 2 ^ 63)%Z → wrap64 z = z.
Proof. intros H. unfold wrap64. rewrite Z.mod_small; lia. Qed.

Lemma sumZ_perm l k : l ≡ₚ k → sumZ l = sumZ k.
Proof.
  unfold sumZ.
  induction 1 as [| x l k _ IH | x y l | l k m _ IH1 _ IH2]; cbn [foldr]; lia.
Qed.

(** [sumSizes] is the wrapped sum of the sizes in the table, whatever order
    the entries are visited in. *)
Lemma sumSizes_any_order (sizeInfo : gmap string Z) (entries : list (string * Z)) :
  entries ≡ₚ map_to_list sizeInfo →
  sumSizes sizeInfo 0 = wrap64 (sumZ (entries.*2)).
Proof.
  intros Hperm. unfold sumSizes. rewrite map_fold_foldr.
  rewrite (sumZ_perm (entries.*2) ((map_to_list sizeInfo).*2))
    by (by apply fmap_Permutation).
  clear Hperm. generalize (map_to_list sizeInfo) as l.
  induction l as [|[d size] l IH]; [done |].
  cbn. rewrite IH, wrap64_add_l. unfold sumZ. f_equal. lia.
Qed.

Lemma lookup_recordLayers (m0 : gmap string Z) layers d :
  foldl (fun m layer => <[Digest layer := Size layer]> m) m0 layers !! d
  = recorded layers d (m0 !! d).
Proof.
  revert m0. induction layers as [|layer layers IH]; intros m0; [done |].
  cbn [foldl recorded]. rewrite IH. f_equal.
  rewrite lookup_insert. by destruct (decide (Digest layer = d)).
Qed.

Lemma recorded_from_Some layers d v : is_Some (recorded layers d (Some v)).
Proof.
  revert v. induction layers as [|layer layers IH]; intros v; [by eexists |].
  cbn [recorded]. destruct (decide (Digest layer = d)); apply IH.
Qed.

Lemma recorded_is_Some layers d before :
  d ∈ map Digest layers → is_Some (recorded layers d before).
Proof.
  revert before. induction layers as [|layer layers IH]; intros before Hd.
  - by apply elem_of_nil in Hd.
  - cbn [recorded]. cbn [map] in Hd.
    destruct (decide (Digest layer = d)) as [Heq | Hne].
    + apply recorded_from_Some.
    + apply IH. apply elem_of_cons in Hd as [Hd | Hd]; [by subst | done].
Qed.

Lemma recorded_Some_inv layers d v :
  recorded layers d None = Some v → d ∈ map Digest layers.
Proof.
  destruct (decide (d ∈ map Digest layers)) as [Hin | Hout]; [done |].
  intros H. exfalso. revert H.
  assert (Hnone : recorded layers d None = None); [| by rewrite Hnone].
  induction layers as [|l ls IH]; [done |].
  cbn [recorded]. cbn [map] in Hout. apply not_elem_of_cons in Hout as [Hne Hout].
  rewrite decide_False by done. by apply IH.
Qed.

(** The table built from the layers has one entry for each digest that
    occurs, holding the size recorded for it. *)
Lemma recordLayers_entries layers :
  map (fun d => (d, sizeOf layers d)) (digests layers)
  ≡ₚ map_to_list (foldl (fun m layer => <[Digest layer := Size layer]> m)
                        (∅ : gmap string Z) layers).
Proof.
  apply NoDup_Permutation.
  - apply (NoDup_fmap_2_strong (fun d => (d, sizeOf layers d))).
    + by intros d1 d2 _ _ [= ->].
    + apply NoDup_remove_dups.
  - apply NoDup_map_to_list.
  - intros [d v]. rewrite elem_of_map_to_list, lookup_recordLayers, lookup_empty.
    rewrite list_elem_of_fmap. split.
    + intros (d' & [= -> ->] & Hin). unfold digests in Hin.
      rewrite elem_of_remove_dups in Hin.
      unfold sizeOf. by destruct (recorded_is_Some layers d' None Hin) as [v ->].
    + intros Hrec. exists d. split.
      * unfold sizeOf. by rewrite Hrec.
      * unfold digests. rewrite elem_of_remove_dups. by eapply recorded_Some_inv.
Qed.

Lemma recorded_consistent layers d size before :
  (∀ layer, layer ∈ layers → Digest layer = d → Size layer = size) →
  before = Some size ∨ d ∈ map Digest layers →
  recorded layers d before = Some size.
Proof.
  revert before. induction layers as [|layer layers IH]; intros before Hsame Hin.
  - destruct Hin as [-> | Hin]; [done | by apply elem_of_nil in Hin].
  - cbn [recorded]. apply IH.
    + intros l Hl. apply Hsame. by right.
    + destruct (decide (Digest layer = d)) as [Heq | Hne].
      * left. f_equal. apply Hsame; [by left | done].
      * destruct Hin as [-> | Hin]; [by left |].
        cbn [map] in Hin. apply elem_of_cons in Hin as [Hin | Hin]; [by subst | by right].
Qed.

(** The loop of [showTotalImageSize] over tags whose manifests are all
    returned: the table ends up with the layers of all of them recorded. *)
Lemma fetch_loop E r image tags ms w w' (sizeInfo : gmap string Z) :
  Fetched E r image tags ms w w' →
  forRange tags (fun tag sizeInfo =>
      fetched <- Registry_ImageManifest E r image tag ;;
      let manifest := fst fetched in
      match snd fetched with
      | Some err => ret (inr (Some (NewExitError (Error err) 1)))
      | None => ret (inl (recordLayers sizeInfo (Layers manifest)))
      end) sizeInfo w
  = (Returned (inl (foldl (fun m layer => <[Digest layer := Size layer]> m)
                          sizeInfo (allLayers ms))), w').
Proof.
  intros Hfetched. revert sizeInfo.
  induction Hfetched as [w | tag tags m ms w w1 w' Hget _ IH]; intros sizeInfo.
  - reflexivity.
  - cbn [forRange]. unfold bind at 1. unfold bind at 1. rewrite Hget.
    cbn [fst snd]. unfold ret at 1. rewrite IH.
    unfold allLayers. cbn [map concat]. by rewrite foldl_app.
Qed.

(** C8. When the manifests of all tags are returned, the total that
    [showTotalImageSize] prints is the (int64) sum of one size per distinct
    layer digest: however many tags share a digest, it contributes a single
    term, the size recorded for it.  When the layers carrying a digest agree
    on its size, that term is this size. *)
Theorem total_size_counts_each_digest_once E c r tags ms w w1 w2 :
  c_String c "name" ≠ "" →
  NewRegistry E = (r, None) →
  ListTagsByImage E r (c_String c "name") w = (Returned (tags, None), w1) →
  Fetched E r (c_String c "name") (elems tags) ms w1 w2 →
  let layers := allLayers ms in
  let total := wrap64 (sumZ (map (sizeOf layers) (digests layers))) in
  showTotalImageSize E c w
  = (Returned None,
     w2 ++ [Printf ("%d %s" +:+ LF) [ArgD total; ArgS (c_String c "name")]]) ∧
  NoDup (digests layers) ∧
  (∀ d, d ∈ digests layers ↔ ∃ layer, layer ∈ layers ∧ Digest layer = d) ∧
  (∀ layer, layer ∈ layers →
     (∀ other, other ∈ layers → Digest other = Digest layer →
               Size other = Size layer) →
     sizeOf layers (Digest layer) = Size layer).
Proof.
  intros Hname Hreg Hlist Hfetched layers total.
  split; [| split; [| split]].
  - unfold showTotalImageSize.
    rewrite bool_decide_eq_false_2 by done. rewrite Hreg.
    unfold bind at 1. rewrite Hlist. cbn [fst snd].
    unfold bind at 1. rewrite (fetch_loop E r _ _ ms w1 w2 ∅ Hfetched).
    fold layers. unfold bind, emit, ret. do 3 f_equal.
    rewrite (sumSizes_any_order _ _ (recordLayers_entries layers)).
    unfold total. do 2 f_equal.
    rewrite <- list_fmap_compose. reflexivity.
  - apply NoDup_remove_dups.
  - intros d. unfold digests. rewrite elem_of_remove_dups, list_elem_of_fmap.
    split; intros (layer & H1 & H2); exists layer; done.
  - intros layer Hin Hsame. unfold sizeOf.
    rewrite (recorded_consistent layers (Digest layer) (Size layer) None); [done | |].
    + intros other Hother Heq. by apply Hsame.
    + right. apply list_elem_of_fmap. by exists layer.
Qed.

Lemma total_size_counts_each_digest_once_witness :
  let E := Reference.env sizeAnswers in
  let r := Reference.credentials in
  showTotalImageSize E (commandLine "app" "" 0) []
  = (Returned None,
     [Sent (tagsRequest r "app");
      Sent (manifestRequest r "app" "v1");
      Sent (manifestRequest r "app" "v2");
      Printf ("%d %s" +:+ LF) [ArgD 35; ArgS "app"]]).
Proof.
  intros E r.
  pose (m1 := manifestOf [layerOf "sha256:aa" 10; layerOf "sha256:bb" 20]).
  pose (m2 := manifestOf [layerOf "sha256:aa" 10; layerOf "sha256:cc" 5]).
  pose (w1 := [Sent (tagsRequest r "app")]).
  pose (w2 := w1 ++ [Sent (manifestRequest r "app" "v1")]).
  pose (w3 := w2 ++ [Sent (manifestRequest r "app" "v2")]).
  assert (Hname : c_String (commandLine "app" "" 0) "name" ≠ "") by done.
  assert (Hreg : NewRegistry E = (r, None)) by reflexivity.
  assert (Hlist : ListTagsByImage E r (c_String (commandLine "app" "" 0) "name") []
                  = (Returned (mkSlice ["v1"; "v2"] [], None), w1))
    by (vm_compute; reflexivity).
  assert (Hfetched : Fetched E r (c_String (commandLine "app" "" 0) "name")
                             (elems (mkSlice ["v1"; "v2"] [])) [m1; m2] w1 w3).
  { apply (Fetched_cons E r _ "v1" ["v2"] m1 [m2] w1 w2 w3);
      [vm_compute; reflexivity |].
    apply (Fetched_cons E r _ "v2" [] m2 [] w2 w3 w3);
      [vm_compute; reflexivity |].
    apply Fetched_nil. }
  destruct (total_size_counts_each_digest_once E _ r _ _ [] w1 w3
              Hname Hreg Hlist Hfetched) as [Hrun _].
  rewrite Hrun. vm_compute. reflexivity.
Defined.

(** ** Retention: keeping the newest tags *)





Lemma sorted_by_number E l :
  SortContract E →
  sort_Sort E compareStringNumber l ≡ₚ l ∧
  StronglySorted byNumber (sort_Sort E compareStringNumber l).
Proof. intros Hsort. exact (Hsort extractNumberFromString l). Qed.

(** [deleteImage] with an image name, no tag and a keep count of at least
    one, once the tags have been listed. *)
Lemma deleteImage_keep_run E c r tags w w1 :
  SortContract E →
  c_String c "name" ≠ "" → c_String c "tag" = "" → (1 ≤ c_Int c "keep")%Z →
  NewRegistry E = (r, None) →
  ListTagsByImage E r (c_String c "name") w = (Returned (tags, None), w1) →
  (len tags < 2 ^ 63)%Z →
  let image := c_String c "name" in
  let keep := c_Int c "keep" in
  let sorted := sort_Sort E compareStringNumber (elems tags) in
  let oldest := take (Z.to_nat (len tags - keep)) sorted in
  deleteImage E c w
  = if bool_decide (keep ≤ len tags)%Z then
      match retentionLoop E r image oldest w1 with
      | (Returned _, w') => (Returned None, w')
      | (Panicked msg, w') => (Panicked msg, w')
      end
    else
      (Returned None,
       w1 ++ [Printf ("Only %d images are available" +:+ LF) [ArgD (len tags)]]).
Proof.
  intros Hsort Hname Htag Hkeep Hreg Hlist Hlen image keep sorted oldest.
  subst image keep.
  destruct (sorted_by_number E (elems tags) Hsort) as [Hperm _].
  fold sorted in Hperm.
  assert (Hlength : length sorted = length (elems tags))
    by (by apply Permutation_length).
  unfold deleteImage.
  rewrite bool_decide_eq_false_2 by done. rewrite Hreg.
  rewrite (bool_decide_eq_true_2 _ Htag).
  rewrite bool_decide_eq_false_2 by lia.
  unfold bind at 1. rewrite Hlist. cbn [fst snd].
  unfold Compare_Sort. fold sorted.
  assert (Hlen' : len (mkSlice sorted (spare tags)) = len tags)
    by (unfold len; cbn [elems]; by rewrite Hlength).
  rewrite Hlen'.
  destruct (decide (c_Int c "keep" ≤ len tags)%Z) as [Hle | Hgt].
  - rewrite (bool_decide_eq_true_2 (c_Int c "keep" ≤ len tags)%Z) by done.
    rewrite bool_decide_eq_true_2 by lia.
    assert (Hrange : (0 ≤ len tags - c_Int c "keep" < 2 ^ 63)%Z) by lia.
    rewrite wrap64_small by lia.
    unfold sliceTo, resliceTo.
    rewrite bool_decide_eq_true_2.
    2: { unfold cap. cbn [elems spare]. unfold len in *. lia. }
    cbn [elems spare]. rewrite take_app_le.
    2: { unfold len in *. lia. }
    fold oldest.
    unfold bind at 1. unfold ret at 1. cbn [elems].
    unfold bind at 1.
    change (forRange oldest _ tt w1)
      with (retentionLoop E r (c_String c "name") oldest w1).
    by destruct (retentionLoop E r (c_String c "name") oldest w1) as [[x | msg] w'].
  - rewrite (bool_decide_eq_false_2 (c_Int c "keep" ≤ len tags)%Z) by done.
    rewrite bool_decide_eq_false_2 by lia.
    reflexivity.
Qed.



(** The reference sort meets the contract. *)
Lemma insertSorted_perm less x l : Reference.insertSorted less x l ≡ₚ x :: l.
Proof.
  induction l as [|y l IH]; [done |].
  cbn [Reference.insertSorted]. destruct (less y x); [| done].
  rewrite IH. apply perm_swap.
Qed.

Lemma insertSorted_sorted (key : string → Z) x l :
  StronglySorted (fun a b => (key a ≤ key b)%Z) l →
  StronglySorted (fun a b => (key a ≤ key b)%Z)
                 (Reference.insertSorted (fun a b => (key a <? key b)%Z) x l).
Proof.
  induction 1 as [| y l Hl IH Hy]; cbn [Reference.insertSorted].
  - repeat constructor.
  - destruct (key y <? key x)%Z eqn:Hlt.
    + constructor; [done |].
      rewrite insertSorted_perm. constructor; [lia | done].
    + constructor; [by constructor |].
      constructor; [lia |].
      eapply Forall_impl; [exact Hy |]. cbn. intros z Hz. lia.
Qed.

Lemma reference_sort_contract table : SortContract (Reference.env table).
Proof.
  intros key l. cbn [sort_Sort Reference.env]. unfold Reference.insertionSort.
  induction l as [|x l [IHperm IHsorted]]; cbn [foldr].
  - split; [done | constructor].
  - split.
    + by rewrite insertSorted_perm, IHperm.
    + by apply insertSorted_sorted.
Qed.



(** A negative keep count passes the test [len(tags) >= keep] and asks for
    a slice longer than the tag list: with no spare room behind the five
    tags, [tags[:6]] panics before anything is deleted. *)
Example negative_keep_panics :
  deleteImage (Reference.env retentionAnswers) (commandLine "app" "" (-1)) []
  = (Panicked "runtime error: slice bounds out of range [:6] with capacity 5",
     [Sent (tagsRequest Reference.credentials "app")]).
Proof. vm_compute. reflexivity. Qed.

(** ** Failures while deleting *)

(** C1 on the code.  Keeping one of three tags: deleting v1 fails (its
    search is answered with status 500), yet [deleteImage] goes on to delete
    v2 and returns nil.  [DeleteImageByTag] itself drops the error of
    [DeleteImageByTagByAssetId]: for v3 the DELETE request is refused with
    status 500, and it prints the success line and returns nil.  The same
    failures are reported when the tag is given on the command line and the
    search fails, which is the path that checks the error. *)
Lemma retention_continues_after_failure :
  let E := Reference.env failingAnswers in
  let r := Reference.credentials in
  DeleteImageByTag E r "app" "v1" []
  = (Returned (Some (errorString "HTTP Code: 500")),
     [Sent (searchRequest r "app" "v1")]) ∧
  deleteImage E (commandLine "app" "" 1) []
  = (Returned None,
     [Sent (tagsRequest r "app");
      willBeDeleted "app" "v1"; Sent (searchRequest r "app" "v1");
      willBeDeleted "app" "v2"; Sent (searchRequest r "app" "v2");
      Sent (deleteRequest r "a2"); deleted "app" "v2"]) ∧
  deleteImage E (commandLine "app" "v1" 0) []
  = (Returned (Some (ExitError "HTTP Code: 500" 1)),
     [Sent (searchRequest r "app" "v1")]) ∧
  DeleteImageByTagByAssetId E r "a3" "app" "v3" [Sent (searchRequest r "app" "v3")]
  = (Returned (Some (errorString
       "HTTP Code: 500, Failed to delete image by assetId: a3, app:v3")),
     [Sent (searchRequest r "app" "v3"); Sent (deleteRequest r "a3")]) ∧
  DeleteImageByTag E r "app" "v3" []
  = (Returned None,
     [Sent (searchRequest r "app" "v3"); Sent (deleteRequest r "a3");
      deleted "app" "v3"]).
Proof.
  intros E r. repeat split; vm_compute; reflexivity.
Qed.

(** ** What a run adds to the trace *)

Lemma Emits_ret {A} P (a : A) : Emits P (ret a).
Proof. intros w res w' [= <- <-]. exists []. by rewrite app_nil_r. Qed.

Lemma Emits_panic {A} P msg : Emits P (@panic A msg).
Proof. intros w res w' [= <- <-]. exists []. by rewrite app_nil_r. Qed.

Lemma Emits_emit P e : P e → Emits P (emit e).
Proof. intros He w res w' [= <- <-]. exists [e]. split; [done | by constructor]. Qed.

Lemma Emits_bind {A B} P (m : M A) (k : A → M B) :
  Emits P m → (∀ a, Emits P (k a)) → Emits P (bind m k).
Proof.
  intros Hm Hk w res w'. unfold bind.
  destruct (m w) as [[a | msg] w1] eqn:Hrun.
  - intros Hrest. destruct (Hm _ _ _ Hrun) as (ext1 & -> & H1).
    destruct (Hk a _ _ _ Hrest) as (ext2 & -> & H2).
    exists (ext1 ++ ext2). split; [by rewrite app_assoc | by apply Forall_app].
  - intros [= <- <-]. exact (Hm _ _ _ Hrun).
Qed.

Lemma Emits_mono {A} (P Q : event → Prop) (m : M A) :
  (∀ e, P e → Q e) → Emits P m → Emits Q m.
Proof.
  intros HPQ Hm w res w' Hrun. destruct (Hm _ _ _ Hrun) as (ext & -> & Hext).
  exists ext. split; [done |]. by eapply Forall_impl.
Qed.

Lemma Emits_Do E P req : P (Sent req) → Emits P (Do E req).
Proof.
  intros Hreq w res w' [= <- <-]. exists [Sent req]. split; [done | by constructor].
Qed.

Lemma Emits_Now E P : Emits P (Now E).
Proof. intros w res w' [= <- <-]. exists []. by rewrite app_nil_r. Qed.

Lemma Emits_forRange {A S R} P (xs : list A) (body : A → S → M (S + R)) s :
  (∀ x s', x ∈ xs → Emits P (body x s')) → Emits P (forRange xs body s).
Proof.
  revert s. induction xs as [|x xs IH]; intros s Hbody; cbn [forRange].
  - apply Emits_ret.
  - apply Emits_bind; [apply Hbody; by left |].
    intros [s' | v]; [| apply Emits_ret].
    apply IH. intros y s'' Hy. apply Hbody. by right.
Qed.

(** One step of a client operation: build the request, send it, look at
    the answer. *)
Ltac one_request :=
  rewrite ?Sprintf_catalog, ?Sprintf_tags, ?Sprintf_manifest, ?Sprintf_search,
    ?Sprintf_asset;
  unfold NewRequest;
  match goal with
  | |- Emits _ (match (match ?x with _ => _ end) with _ => _ end) => destruct x
  end;
  [repeat first [apply Emits_ret | apply Emits_Now | apply Emits_emit; exact I
                | apply Emits_bind; [| intros ?]]
  | apply Emits_bind;
    [apply Emits_Do; cbn [OnlySends]; reflexivity |];
    intros [resp | err];
    repeat first [apply Emits_ret | apply Emits_Now | apply Emits_emit; exact I
                 | apply Emits_bind; [| intros ?]
                 | match goal with
                   | |- Emits _ (if ?b then _ else _) => destruct b
                   | |- Emits _ (match ?x with _ => _ end) => destruct x
                   end]].

Lemma ListImages_sends E r :
  Emits (OnlySends (eq (catalogRequest r))) (ListImages E r).
Proof. unfold ListImages. cbv zeta. one_request. Qed.

Lemma ListTagsByImage_sends E r image :
  Emits (OnlySends (eq (tagsRequest r image))) (ListTagsByImage E r image).
Proof. unfold ListTagsByImage. cbv zeta. one_request. Qed.

Lemma ImageManifest_sends E r image tag :
  Emits (OnlySends (eq (manifestRequest r image tag)))
        (Registry_ImageManifest E r image tag).
Proof. unfold Registry_ImageManifest. cbv zeta. one_request. Qed.

Lemma SearchAssets_sends E r image tag :
  Emits (OnlySends (eq (searchRequest r image tag)))
        (Registry_SearchAssets E r image tag).
Proof. unfold Registry_SearchAssets. cbv zeta. one_request. Qed.

Lemma DeleteImageByTagByAssetId_sends E r assetId image tag :
  Emits (OnlySends (eq (deleteRequest r assetId)))
        (DeleteImageByTagByAssetId E r assetId image tag).
Proof. unfold DeleteImageByTagByAssetId. cbv zeta. one_request. Qed.

Lemma GetImageTagDate_sends E r image tag :
  Emits (OnlySends (eq (manifestRequest r image tag))) (GetImageTagDate E r image tag).
Proof. unfold GetImageTagDate. cbv zeta. one_request. Qed.

Lemma getImageSHA_sends E r image tag :
  Emits (OnlySends (eq (manifestRequest r image tag))) (getImageSHA E r image tag).
Proof. unfold getImageSHA, Print. cbv zeta. one_request. Qed.

Lemma index0_emits {A} P (xs : slice A) : Emits P (index0 xs).
Proof.
  unfold index0. destruct (elems xs !! 0%nat); [apply Emits_ret | apply Emits_panic].
Qed.

Lemma DeleteImageByTag_sends E r image tag :
  Emits (OnlySends (TagRequest r image tag)) (DeleteImageByTag E r image tag).
Proof.
  unfold DeleteImageByTag. apply Emits_bind.
  - eapply Emits_mono; [| apply SearchAssets_sends].
    intros [req | | |]; cbn [OnlySends]; [| done..]. intros <-. by left.
  - intros found. cbv zeta. destruct (snd found); [apply Emits_ret |].
    apply Emits_bind; [| intros _; apply Emits_ret].
    destruct (bool_decide _); [| by apply Emits_emit].
    apply Emits_bind; [apply index0_emits | intros item0].
    apply Emits_bind; [apply index0_emits | intros asset0].
    apply Emits_bind; [| intros _; by apply Emits_emit].
    eapply Emits_mono; [| apply DeleteImageByTagByAssetId_sends].
    intros [req | | |]; cbn [OnlySends]; [| done..]. intros <-. right. by eexists.
Qed.

Lemma OnlySends_mono (P Q : Request → Prop) e :
  (∀ req, P req → Q req) → OnlySends P e → OnlySends Q e.
Proof. intros HPQ. destruct e; cbn [OnlySends]; auto. Qed.

Lemma sliceTo_emits {A} P (xs : slice A) high : Emits P (sliceTo xs high).
Proof.
  unfold sliceTo. destruct (resliceTo xs high); [apply Emits_ret | apply Emits_panic].
Qed.

Lemma deleteImage_sends E c :
  Emits (OnlySends (ClientRequest (fst (NewRegistry E)))) (deleteImage E c).
Proof.
  unfold deleteImage. cbv zeta.
  destruct (bool_decide (c_String c "name" = "")).
  { repeat (apply Emits_bind; [by apply Emits_emit | intros _]). apply Emits_ret. }
  destruct (NewRegistry E) as [r [err |]]; [apply Emits_ret |]. cbn [fst].
  assert (Htag : ∀ tag, Emits (OnlySends (ClientRequest r))
                              (DeleteImageByTag E r (c_String c "name") tag)).
  { intros tag. eapply Emits_mono; [| apply DeleteImageByTag_sends].
    intros e. apply OnlySends_mono. intros req [-> | Hdel]; [| by right].
    left. constructor. }
  destruct (bool_decide (c_String c "tag" = "")).
  - destruct (bool_decide (c_Int c "keep" = 0%Z)).
    { repeat (apply Emits_bind; [by apply Emits_emit | intros _]). apply Emits_ret. }
    apply Emits_bind.
    { eapply Emits_mono; [| apply ListTagsByImage_sends].
      intros e. apply OnlySends_mono. intros req <-. left. constructor. }
    intros listed. destruct (snd listed); [apply Emits_ret |].
    destruct (bool_decide _).
    + apply Emits_bind; [apply sliceTo_emits | intros oldest].
      apply Emits_bind; [| intros _; apply Emits_ret].
      apply Emits_forRange. intros tag _ _.
      apply Emits_bind; [by apply Emits_emit | intros _].
      apply Emits_bind; [apply Htag | intros _; apply Emits_ret].
    + apply Emits_bind; [by apply Emits_emit | intros _; apply Emits_ret].
  - apply Emits_bind; [apply Htag |].
    intros [err |]; apply Emits_ret.
Qed.

Lemma ClientRequest_shape r req :
  ClientRequest r req →
  BasicAuth req = Some (Username r, Password r) ∧
  (∃ path, URL req = Host r +:+ path) ∧
  (∃ accept, ReqHeader req = [("Accept", accept)]) ∧
  (Method req = "GET" ∨ Method req = "DELETE").
Proof.
  intros [Hread | [assetId ->]].
  - destruct Hread; (split; [reflexivity |]); (split; [by eexists |]);
      (split; [by eexists | by left]).
  - split; [reflexivity |]. split; [by eexists |]. split; [by eexists | by right].
Qed.

(** X1. Every request that [DeleteImageByTagByAssetId], [DeleteImageByTag]
    and the command [deleteImage] send, on runs that return and on runs
    that panic alike, is one of the client's requests: it goes to a URL
    under the configured host, carries the configured user name and password
    as basic authentication and exactly one Accept header, and its method is
    GET or DELETE. *)
Theorem delete_paths_send_client_requests E r c :
  (∀ assetId image tag,
     Emits (OnlySends (ClientRequest r))
           (DeleteImageByTagByAssetId E r assetId image tag)) ∧
  (∀ image tag,
     Emits (OnlySends (ClientRequest r)) (DeleteImageByTag E r image tag)) ∧
  Emits (OnlySends (ClientRequest (fst (NewRegistry E)))) (deleteImage E c) ∧
  (∀ req, ClientRequest r req →
     BasicAuth req = Some (Username r, Password r) ∧
     (∃ path, URL req = Host r +:+ path) ∧
     (∃ accept, ReqHeader req = [("Accept", accept)]) ∧
     (Method req = "GET" ∨ Method req = "DELETE")).
Proof.
  split; [| split; [| split]].
  - intros assetId image tag.
    eapply Emits_mono; [| apply DeleteImageByTagByAssetId_sends].
    intros e. apply OnlySends_mono. intros req <-. right. by eexists.
  - intros image tag. eapply Emits_mono; [| apply DeleteImageByTag_sends].
    intros e. apply OnlySends_mono. intros req [-> | Hdel]; [| by right].
    left. constructor.
  - apply deleteImage_sends.
  - apply ClientRequest_shape.
Qed.

Lemma delete_paths_send_client_requests_witness :
  let E := Reference.env retentionAnswers in
  let r := Reference.credentials in
  ∃ ext,
    snd (deleteImage E (commandLine "app" "" 2) []) = [] ++ ext ∧
    length ext = 12%nat ∧
    Forall (OnlySends (ClientRequest r)) ext.
Proof.
  intros E r.
  destruct (proj1 (proj2 (proj2 (delete_paths_send_client_requests E r
                                   (commandLine "app" "" 2))))
              [] _ _ (surjective_pairing _)) as (ext & Hext & Hall).
  exists ext. split; [exact Hext |]. split; [| exact Hall].
  cbn [app] in Hext. rewrite <- Hext. vm_compute. reflexivity.
Defined.

Lemma sends_one_read {A} r req (m : M A) :
  ReadRequest r req → Emits (OnlySends (eq req)) m →
  Emits (OnlySends (ReadRequest r)) m.
Proof.
  intros Hread. apply Emits_mono. intros e. apply OnlySends_mono. by intros ? <-.
Qed.

Ltac one_read sends := eapply sends_one_read; [| apply sends]; constructor.

Lemma printing_loop_emits {A} P (xs : list A) (line : A → event) :
  (∀ x, P (line x)) →
  Emits P (forRange xs (fun x (_ : unit) =>
             emit (line x) ;;; ret (inl tt : unit + option error)) tt).
Proof.
  intros Hline. apply Emits_forRange. intros x _ _.
  apply Emits_bind; [by apply Emits_emit | intros _; apply Emits_ret].
Qed.

Lemma listImages_sends E c :
  Emits (OnlySends (ReadRequest (fst (NewRegistry E)))) (listImages E c).
Proof.
  unfold listImages.
  destruct (NewRegistry E) as [r [err |]]; [apply Emits_ret |]. cbn [fst].
  apply Emits_bind; [one_read ListImages_sends |].
  intros listed. cbv zeta. destruct (snd listed); [apply Emits_ret |].
  apply Emits_bind; [by apply printing_loop_emits | intros _].
  apply Emits_bind; [by apply Emits_emit | intros _; apply Emits_ret].
Qed.

Lemma listTagsByImage_sends E c :
  Emits (OnlySends (ReadRequest (fst (NewRegistry E)))) (listTagsByImage E c).
Proof.
  unfold listTagsByImage. cbv zeta.
  destruct (NewRegistry E) as [r [err |]]; [apply Emits_ret |]. cbn [fst].
  apply Emits_bind.
  { destruct (bool_decide _); [by apply Emits_emit | apply Emits_ret]. }
  intros _. apply Emits_bind.
  { one_read ListTagsByImage_sends. }
  intros listed. destruct (snd listed); [apply Emits_ret |].
  apply Emits_bind; [by apply printing_loop_emits | intros _].
  apply Emits_bind; [by apply Emits_emit | intros _; apply Emits_ret].
Qed.

Lemma showImageInfo_sends E c :
  Emits (OnlySends (ReadRequest (fst (NewRegistry E)))) (showImageInfo E c).
Proof.
  unfold showImageInfo. cbv zeta.
  destruct (NewRegistry E) as [r [err |]]; [apply Emits_ret |]. cbn [fst].
  apply Emits_bind.
  { destruct (bool_decide _); [by apply Emits_emit | apply Emits_ret]. }
  intros _. apply Emits_bind.
  { one_read ImageManifest_sends. }
  intros fetched. destruct (snd fetched); [apply Emits_ret |].
  do 3 (apply Emits_bind; [by apply Emits_emit | intros _]).
  apply Emits_bind; [| intros _; apply Emits_ret].
  by apply (printing_loop_emits _ _ (fun layer =>
    Printf (TAB +:+ "%s" +:+ TAB +:+ "%d" +:+ LF)
           [ArgS (Digest layer); ArgD (Size layer)])).
Qed.

Lemma showTotalImageSize_sends E c :
  Emits (OnlySends (ReadRequest (fst (NewRegistry E)))) (showTotalImageSize E c).
Proof.
  unfold showTotalImageSize. cbv zeta.
  destruct (bool_decide _).
  { apply Emits_bind; [by apply Emits_emit | intros _; apply Emits_ret]. }
  destruct (NewRegistry E) as [r [err |]]; [apply Emits_ret |]. cbn [fst].
  apply Emits_bind.
  { one_read ListTagsByImage_sends. }
  intros listed. destruct (snd listed); [apply Emits_ret |].
  apply Emits_bind.
  - apply Emits_forRange. intros tag sizeInfo _.
    apply Emits_bind.
    { one_read ImageManifest_sends. }
    intros fetched. destruct (snd fetched); apply Emits_ret.
  - intros [sizeInfo | v]; [| apply Emits_ret].
    apply Emits_bind; [by apply Emits_emit | intros _; apply Emits_ret].
Qed.

(** X2. The operations and commands that only read never send anything but
    GET requests for the catalog, a tag list, a manifest or a search, each
    with the configured credentials: [ListImages], [ListTagsByImage],
    [ImageManifest], [SearchAssets], [GetImageTagDate], [getImageSHA], and
    the commands [listImages], [listTagsByImage], [showImageInfo] and
    [showTotalImageSize].  In particular none of them sends a DELETE. *)
Theorem read_paths_send_only_reads E r c image tag :
  Emits (OnlySends (ReadRequest r)) (ListImages E r) ∧
  Emits (OnlySends (ReadRequest r)) (ListTagsByImage E r image) ∧
  Emits (OnlySends (ReadRequest r)) (Registry_ImageManifest E r image tag) ∧
  Emits (OnlySends (ReadRequest r)) (Registry_SearchAssets E r image tag) ∧
  Emits (OnlySends (ReadRequest r)) (GetImageTagDate E r image tag) ∧
  Emits (OnlySends (ReadRequest r)) (getImageSHA E r image tag) ∧
  Emits (OnlySends (ReadRequest (fst (NewRegistry E)))) (listImages E c) ∧
  Emits (OnlySends (ReadRequest (fst (NewRegistry E)))) (listTagsByImage E c) ∧
  Emits (OnlySends (ReadRequest (fst (NewRegistry E)))) (showImageInfo E c) ∧
  Emits (OnlySends (ReadRequest (fst (NewRegistry E)))) (showTotalImageSize E c) ∧
  (∀ req, ReadRequest r req →
     Method req = "GET" ∧ BasicAuth req = Some (Username r, Password r) ∧
     ∀ assetId, req ≠ deleteRequest r assetId).
Proof.
  split; [one_read ListImages_sends |].
  split; [one_read ListTagsByImage_sends |].
  split; [one_read ImageManifest_sends |].
  split; [one_read SearchAssets_sends |].
  split; [one_read GetImageTagDate_sends |].
  split; [one_read getImageSHA_sends |].
  split; [apply listImages_sends |].
  split; [apply listTagsByImage_sends |].
  split; [apply showImageInfo_sends |].
  split; [apply showTotalImageSize_sends |].
  intros req Hread.
  destruct Hread; (split; [reflexivity |]); (split; [reflexivity |]);
    intros assetId [=].
Qed.

Lemma read_paths_send_only_reads_witness :
  let E := Reference.env sizeAnswers in
  let r := Reference.credentials in
  ∃ ext,
    snd (showTotalImageSize E (commandLine "app" "" 0) []) = [] ++ ext ∧
    length ext = 4%nat ∧
    Forall (OnlySends (ReadRequest r)) ext.
Proof.
  intros E r.
  destruct (read_paths_send_only_reads E r (commandLine "app" "" 0) "app" "v1")
    as (_ & _ & _ & _ & _ & _ & _ & _ & _ & Hsize & _).
  destruct (Hsize [] _ _ (surjective_pairing _)) as (ext & Hext & Hall).
  exists ext. split; [exact Hext |]. split; [| exact Hall].
  cbn [app] in Hext. rewrite <- Hext. vm_compute. reflexivity.
Defined.

(** ** One request per operation *)

Ltac one_request_run :=
  intros w;
  rewrite ?Sprintf_catalog, ?Sprintf_tags, ?Sprintf_manifest, ?Sprintf_search,
    ?Sprintf_asset;
  unfold NewRequest; cbn [Method URL clientRequest catalogRequest tagsRequest
    manifestRequest searchRequest deleteRequest];
  split;
  [ intros err Hnew; rewrite Hnew; reflexivity
  | intros Hnew; rewrite Hnew; unfold bind, Do, SetBasicAuth, Header_Add;
    cbn [Method URL BasicAuth ReqHeader app];
    change (CanonicalMIMEHeaderKey "Accept") with "Accept";
    match goal with
    | |- context [client_Do ?E ?w ?req] =>
        split;
        [ destruct (client_Do E w req) as [resp | err];
          [ destruct (bool_decide _); eexists; reflexivity
          | eexists; reflexivity ]
        | intros err Hdo;
          match type of Hdo with
          | client_Do _ _ ?req' = _ => change req' with req in Hdo
          end;
          rewrite Hdo; reflexivity ]
    end ].

(** X3. [ListImages], [ListTagsByImage], [ImageManifest], [SearchAssets]
    and [DeleteImageByTagByAssetId] are one request each.  When
    [http.NewRequest] refuses the URL, nothing is sent and its error is
    returned with no data; otherwise exactly one request is sent and the
    operation returns (it never panics); an error of the transport is
    returned as it is, with no data. *)
Theorem one_request_per_operation E r image tag assetId :
  OneRequest E (catalogRequest r) (fun err => (nilSlice, Some err)) (ListImages E r) ∧
  OneRequest E (tagsRequest r image) (fun err => (nilSlice, Some err))
             (ListTagsByImage E r image) ∧
  OneRequest E (manifestRequest r image tag) (fun err => (zeroImageManifest, Some err))
             (Registry_ImageManifest E r image tag) ∧
  OneRequest E (searchRequest r image tag) (fun err => (zeroSearchAssets, Some err))
             (Registry_SearchAssets E r image tag) ∧
  OneRequest E (deleteRequest r assetId) (fun err => Some err)
             (DeleteImageByTagByAssetId E r assetId image tag).
Proof.
  split; [unfold ListImages; cbv zeta; one_request_run |].
  split; [unfold ListTagsByImage; cbv zeta; one_request_run |].
  split; [unfold Registry_ImageManifest; cbv zeta; one_request_run |].
  split; [unfold Registry_SearchAssets; cbv zeta; one_request_run |].
  unfold DeleteImageByTagByAssetId; cbv zeta; one_request_run.
Qed.

Lemma one_request_per_operation_witness :
  let r := Reference.credentials in
  ListTagsByImage (checkingEnv []) r ("app" +:+ LF) []
  = (Returned (nilSlice, Some (pkgError "net/url" "invalid control character in URL")),
     []) ∧
  ListTagsByImage (Reference.env unreachableAnswers) r "app" []
  = (Returned (nilSlice, Some unreachable), [Sent (tagsRequest r "app")]).
Proof.
  intros r. split.
  - destruct (one_request_per_operation (checkingEnv []) r ("app" +:+ LF) "" "")
      as (_ & Htags & _).
    destruct (Htags []) as [Hrefused _].
    apply Hrefused. vm_compute. reflexivity.
  - destruct (one_request_per_operation (Reference.env unreachableAnswers) r "app" "" "")
      as (_ & Htags & _).
    destruct (Htags []) as [_ Hsent].
    destruct (Hsent eq_refl) as [_ Hfailed].
    apply Hfailed. vm_compute. reflexivity.
Defined.

(** ** Deleting an asset *)

Lemma Errorf_delete_failed code assetId image tag :
  Errorf "HTTP Code: %d, Failed to delete image by assetId: %s, %s:%s"
         [ArgD code; ArgS assetId; ArgS image; ArgS tag]
  = deleteFailedError code assetId image tag.
Proof.
  unfold Errorf, deleteFailedError. f_equal. cbn [Sprintf].
  rewrite formatArg_d, !formatArg_s, append_empty. reflexivity.
Qed.

Lemma DeleteImageByTagByAssetId_run E r assetId image tag w :
  DeleteImageByTagByAssetId E r assetId image tag w
  = match http_NewRequest_err E "DELETE" (assetURL r assetId) with
    | Some err => (Returned (Some err), w)
    | None =>
        (Returned
           match client_Do E w (deleteRequest r assetId) with
           | inr err => Some err
           | inl resp =>
               if bool_decide (StatusCode resp ≠ 202%Z)
               then Some (deleteFailedError (StatusCode resp) assetId image tag)
               else None
           end,
         w ++ [Sent (deleteRequest r assetId)])
    end.
Proof.
  unfold DeleteImageByTagByAssetId. rewrite Sprintf_asset. unfold NewRequest.
  destruct (http_NewRequest_err E "DELETE" (assetURL r assetId)); [reflexivity |].
  unfold bind, Do, SetBasicAuth, Header_Add.
  cbn [Method URL BasicAuth ReqHeader app].
  change (CanonicalMIMEHeaderKey "Accept") with "Accept".
  fold (clientRequest r "DELETE" (assetURL r assetId) acceptHeaderJson).
  fold (deleteRequest r assetId).
  destruct (client_Do E w (deleteRequest r assetId)) as [resp | err]; [| reflexivity].
  destruct (bool_decide (StatusCode resp ≠ 202%Z)); [| reflexivity].
  by rewrite Errorf_delete_failed.
Qed.

(** X4. [DeleteImageByTagByAssetId] returns nil exactly when the DELETE
    request could be built and was answered with status 202.  Any other
    status, 200 and 204 included, is an error that names the status, the
    asset id and image:tag. *)
Theorem asset_deletion_needs_202 E r assetId image tag w :
  (∀ w', DeleteImageByTagByAssetId E r assetId image tag w = (Returned None, w') ↔
         w' = w ++ [Sent (deleteRequest r assetId)] ∧
         ∃ resp, Answers E w (deleteRequest r assetId) resp ∧ StatusCode resp = 202%Z) ∧
  (∀ resp, Answers E w (deleteRequest r assetId) resp → StatusCode resp ≠ 202%Z →
     DeleteImageByTagByAssetId E r assetId image tag w
     = (Returned (Some (deleteFailedError (StatusCode resp) assetId image tag)),
        w ++ [Sent (deleteRequest r assetId)])).
Proof.
  rewrite DeleteImageByTagByAssetId_run. unfold Answers.
  cbn [Method URL deleteRequest clientRequest].
  fold (clientRequest r "DELETE" (assetURL r assetId) acceptHeaderJson).
  fold (deleteRequest r assetId).
  split.
  - intros w'. split.
    + destruct (http_NewRequest_err E "DELETE" (assetURL r assetId)); [intros [=] |].
      destruct (client_Do E w (deleteRequest r assetId)) as [resp | err];
        [| intros [=]].
      destruct (decide (StatusCode resp = 202%Z)) as [Hcode | Hcode].
      * rewrite bool_decide_eq_false_2 by (intros Hne; by apply Hne).
        intros [= <-]. split; [done |]. by exists resp.
      * rewrite bool_decide_eq_true_2 by done. intros [=].
    + intros (-> & resp & [Hnew Hdo] & Hcode). rewrite Hnew, Hdo.
      by rewrite bool_decide_eq_false_2 by (intros Hne; by apply Hne).
  - intros resp [Hnew Hdo] Hcode. rewrite Hnew, Hdo.
    by rewrite bool_decide_eq_true_2.
Qed.

Lemma asset_deletion_needs_202_witness :
  let E := Reference.env noContentAnswers in
  let r := Reference.credentials in
  DeleteImageByTagByAssetId E r "a1" "app" "v1" []
  = (Returned (Some (errorString
       "HTTP Code: 204, Failed to delete image by assetId: a1, app:v1")),
     [Sent (deleteRequest r "a1")]) ∧
  DeleteImageByTagByAssetId E r "a2" "app" "v2" []
  = (Returned None, [Sent (deleteRequest r "a2")]).
Proof.
  intros E r. split.
  - destruct (asset_deletion_needs_202 E r "a1" "app" "v1" []) as [_ Hrefused].
    assert (Ha : Answers E [] (deleteRequest r "a1")
                   (answerTo noContentAnswers (deleteRequest r "a1")))
      by (split; vm_compute; reflexivity).
    assert (Hc : StatusCode (answerTo noContentAnswers (deleteRequest r "a1")) ≠ 202%Z)
      by (vm_compute; discriminate).
    exact (Hrefused _ Ha Hc).
  - destruct (asset_deletion_needs_202 E r "a2" "app" "v2" []) as [Haccepted _].
    apply Haccepted. split; [reflexivity |].
    exists (answerTo noContentAnswers (deleteRequest r "a2")).
    split; [split |]; vm_compute; reflexivity.
Defined.

(** ** Deleting a tag: when it fails *)

Lemma Registry_SearchAssets_world E r image tag w res w' :
  Registry_SearchAssets E r image tag w = (res, w') →
  (∃ a, res = Returned a) ∧
  (w' = w ∨ w' = w ++ [Sent (searchRequest r image tag)]).
Proof.
  unfold Registry_SearchAssets. rewrite Sprintf_search. unfold NewRequest.
  destruct (http_NewRequest_err E "GET" (searchURL r image tag)).
  { intros [= <- <-]. split; [by eexists | by left]. }
  unfold bind, Do, SetBasicAuth, Header_Add.
  cbn [Method URL BasicAuth ReqHeader app].
  change (CanonicalMIMEHeaderKey "Accept") with "Accept".
  fold (clientRequest r "GET" (searchURL r image tag) acceptHeaderJson).
  fold (searchRequest r image tag).
  destruct (client_Do E w (searchRequest r image tag)) as [resp | err].
  - destruct (bool_decide _); intros [= <- <-]; (split; [by eexists | by right]).
  - intros [= <- <-]. split; [by eexists | by right].
Qed.

(** X5. [DeleteImageByTag] returns an error exactly when the search does,
    and then returns that error: the only request sent, if any, is the
    search, nothing is deleted and nothing is printed. *)
Theorem DeleteImageByTag_fails_with_the_search E r image tag w :
  (∀ found err w1,
     Registry_SearchAssets E r image tag w = (Returned (found, Some err), w1) →
     DeleteImageByTag E r image tag w = (Returned (Some err), w1)) ∧
  (∀ err w',
     DeleteImageByTag E r image tag w = (Returned (Some err), w') →
     (∃ found, Registry_SearchAssets E r image tag w
               = (Returned (found, Some err), w')) ∧
     (w' = w ∨ w' = w ++ [Sent (searchRequest r image tag)])).
Proof.
  split.
  - intros found err w1 Hsearch. unfold DeleteImageByTag.
    by rewrite (bind_Returned _ _ _ _ _ Hsearch).
  - intros err w'. unfold DeleteImageByTag. unfold bind at 1.
    destruct (Registry_SearchAssets E r image tag w) as [res w1] eqn:Hsearch.
    destruct (Registry_SearchAssets_world _ _ _ _ _ _ _ Hsearch) as [[[found e] ->] Hw1].
    cbn [fst snd]. destruct e as [e |].
    + intros [= <- <-]. split; [by exists found | done].
    + unfold bind at 1.
      match goal with
      | |- context [match ?run w1 with _ => _ end] =>
          destruct (run w1) as [[u | msg] w2]
      end; intros [=].
Qed.

Lemma DeleteImageByTag_fails_with_the_search_witness :
  let E := Reference.env failingAnswers in
  let r := Reference.credentials in
  DeleteImageByTag E r "app" "v1" []
  = (Returned (Some (errorString "HTTP Code: 500")), [Sent (searchRequest r "app" "v1")]).
Proof.
  intros E r.
  destruct (DeleteImageByTag_fails_with_the_search E r "app" "v1" []) as [Hfails _].
  apply (Hfails zeroSearchAssets). vm_compute. reflexivity.
Defined.

(** ** Searching *)

(** X6. [SearchAssets] on a status other than 200 returns the error
    "HTTP Code: <status>" and the zero result.  On status 200 it never
    reports an error: a body from which the decoder stores nothing reads as
    a search without items, so that [DeleteImageByTag] prints "No assets
    found" and returns nil. *)
Theorem SearchAssets_status_contract E r image tag w resp :
  Answers E w (searchRequest r image tag) resp →
  let w1 := w ++ [Sent (searchRequest r image tag)] in
  (StatusCode resp ≠ 200%Z →
     Registry_SearchAssets E r image tag w
     = (Returned (zeroSearchAssets, Some (httpCodeError (StatusCode resp))), w1)) ∧
  (StatusCode resp = 200%Z →
     Registry_SearchAssets E r image tag w
     = (Returned (fst (Decode_SearchAssets E (Body resp) zeroSearchAssets), None), w1)) ∧
  (StatusCode resp = 200%Z →
   fst (Decode_SearchAssets E (Body resp) zeroSearchAssets) = zeroSearchAssets →
     DeleteImageByTag E r image tag w = (Returned None, w1 ++ [noAssets image tag])).
Proof.
  intros H w1. split; [| split].
  - intros Hcode. unfold Registry_SearchAssets. answered H.
    rewrite bool_decide_eq_true_2 by done. by rewrite Errorf_http_code.
  - intros Hcode. by apply Registry_SearchAssets_200.
  - intros Hcode Hzero.
    rewrite (DeleteImageByTag_found E r image tag w resp H Hcode).
    cbv zeta. by rewrite Hzero.
Qed.

Lemma SearchAssets_status_contract_witness :
  let r := Reference.credentials in
  Registry_SearchAssets (Reference.env failingAnswers) r "app" "v1" []
  = (Returned (zeroSearchAssets, Some (errorString "HTTP Code: 500")),
     [Sent (searchRequest r "app" "v1")]) ∧
  DeleteImageByTag
    (Reference.env [("GET", searchURL r "app" "v1",
                     inl (mkResponse 200 ∅ (NotJSON "<html>")))]) r "app" "v1" []
  = (Returned None, [Sent (searchRequest r "app" "v1"); noAssets "app" "v1"]).
Proof.
  intros r. split.
  - assert (Ha : Answers (Reference.env failingAnswers) [] (searchRequest r "app" "v1")
                   (mkResponse 500 ∅ (NotJSON "")))
      by (split; vm_compute; reflexivity).
    destruct (SearchAssets_status_contract _ r "app" "v1" [] _ Ha) as [Hfail _].
    apply Hfail. vm_compute. discriminate.
  - pose (page := mkResponse 200 ∅ (NotJSON "<html>")).
    assert (Ha : Answers (Reference.env [("GET", searchURL r "app" "v1", inl page)]) []
                   (searchRequest r "app" "v1") page)
      by (split; vm_compute; reflexivity).
    destruct (SearchAssets_status_contract _ r "app" "v1" [] _ Ha) as (_ & _ & Hnone).
    apply Hnone; reflexivity.
Defined.

(** ** The digest of a tag *)

Lemma Errorf_sha_failed code :
  Errorf "HTTP Code: %d, Failed to fetch image sha" [ArgD code] = shaFailedError code.
Proof. reflexivity. Qed.

(** X7. [getImageSHA] returns the value of the docker-content-digest header
    of a 200 answer, which is the empty string, with no error, when the
    answer has no such header.  A status other than 200 is the error
    "HTTP Code: <status>, Failed to fetch image sha".  The line "Can't even
    find the sha" is printed when the request cannot be built or sent, and
    only then. *)
Theorem getImageSHA_contract E r image tag w :
  let req := manifestRequest r image tag in
  (∀ err, http_NewRequest_err E "GET" (manifestURL r image tag) = Some err →
     getImageSHA E r image tag w = (Returned ("", Some err), w ++ [cantFindSha])) ∧
  (∀ err, http_NewRequest_err E "GET" (manifestURL r image tag) = None →
     client_Do E w req = inr err →
     getImageSHA E r image tag w
     = (Returned ("", Some err), w ++ [Sent req; cantFindSha])) ∧
  (∀ resp, Answers E w req resp → StatusCode resp ≠ 200%Z →
     getImageSHA E r image tag w
     = (Returned ("", Some (shaFailedError (StatusCode resp))), w ++ [Sent req])) ∧
  (∀ resp, Answers E w req resp → StatusCode resp = 200%Z →
     getImageSHA E r image tag w
     = (Returned (Header_Get (Header resp) "docker-content-digest", None),
        w ++ [Sent req])) ∧
  (∀ resp, Answers E w req resp → StatusCode resp = 200%Z →
     Header resp !! "Docker-Content-Digest" = None →
     getImageSHA E r image tag w = (Returned ("", None), w ++ [Sent req])).
Proof.
  intros req.
  assert (Hrun : getImageSHA E r image tag w
    = match http_NewRequest_err E "GET" (manifestURL r image tag) with
      | Some err => (Returned ("", Some err), w ++ [cantFindSha])
      | None =>
          match client_Do E w req with
          | inr err => (Returned ("", Some err), w ++ [Sent req; cantFindSha])
          | inl resp =>
              if bool_decide (StatusCode resp ≠ 200%Z) then
                (Returned ("", Some (shaFailedError (StatusCode resp))), w ++ [Sent req])
              else
                (Returned (Header_Get (Header resp) "docker-content-digest", None),
                 w ++ [Sent req])
          end
      end).
  { unfold getImageSHA. rewrite Sprintf_manifest. unfold NewRequest.
    destruct (http_NewRequest_err E "GET" (manifestURL r image tag)); [reflexivity |].
    unfold bind at 1. unfold Do, SetBasicAuth, Header_Add.
    cbn [Method URL BasicAuth ReqHeader app].
    change (CanonicalMIMEHeaderKey "Accept") with "Accept".
    fold (clientRequest r "GET" (manifestURL r image tag) acceptHeader).
    fold (manifestRequest r image tag). fold req.
    destruct (client_Do E w req) as [resp | err].
    - destruct (bool_decide (StatusCode resp ≠ 200%Z)); [| reflexivity].
      by rewrite Errorf_sha_failed.
    - unfold bind, Print, emit, ret. by rewrite <- app_assoc. }
  rewrite Hrun. split; [| split; [| split; [| split]]].
  - intros err Hnew. by rewrite Hnew.
  - intros err Hnew Hdo. by rewrite Hnew, Hdo.
  - intros resp [Hnew Hdo] Hcode. cbn in Hnew. rewrite Hnew, Hdo.
    by rewrite bool_decide_eq_true_2.
  - intros resp [Hnew Hdo] Hcode. cbn in Hnew. rewrite Hnew, Hdo.
    by rewrite bool_decide_eq_false_2 by (intros Hne; by apply Hne).
  - intros resp [Hnew Hdo] Hcode Hmissing. cbn in Hnew. rewrite Hnew, Hdo.
    rewrite bool_decide_eq_false_2 by (intros Hne; by apply Hne).
    by rewrite (Header_Get_missing (Header resp) "docker-content-digest" Hmissing).
Qed.

Lemma getImageSHA_contract_witness :
  let E := Reference.env digestAnswers in
  let r := Reference.credentials in
  getImageSHA E r "app" "v1" []
  = (Returned ("sha256:0123", None), [Sent (manifestRequest r "app" "v1")]) ∧
  getImageSHA E r "app" "v2" []
  = (Returned ("", None), [Sent (manifestRequest r "app" "v2")]) ∧
  getImageSHA E r "app" "v3" []
  = (Returned ("", Some unreachable), [Sent (manifestRequest r "app" "v3"); cantFindSha]).
Proof.
  intros E r. split; [| split].
  - destruct (getImageSHA_contract E r "app" "v1" []) as (_ & _ & _ & Hfound & _).
    assert (Ha : Answers E [] (manifestRequest r "app" "v1")
                   (answerTo digestAnswers (manifestRequest r "app" "v1")))
      by (split; vm_compute; reflexivity).
    assert (Hc : StatusCode (answerTo digestAnswers (manifestRequest r "app" "v1"))
                 = 200%Z) by (vm_compute; reflexivity).
    rewrite (Hfound _ Ha Hc). vm_compute. reflexivity.
  - destruct (getImageSHA_contract E r "app" "v2" []) as (_ & _ & _ & _ & Hmissing).
    assert (Ha : Answers E [] (manifestRequest r "app" "v2")
                   (answerTo digestAnswers (manifestRequest r "app" "v2")))
      by (split; vm_compute; reflexivity).
    apply (Hmissing _ Ha); vm_compute; reflexivity.
  - destruct (getImageSHA_contract E r "app" "v3" []) as (_ & Hdown & _).
    apply Hdown; vm_compute; reflexivity.
Defined.

(** ** The credentials *)

(** X8. [NewRegistry] fails with ".credentials file not found: ..." and the
    zero registry when the file does not exist, and with the error of
    [os.Stat] and the zero registry when the file cannot be inspected for
    another reason; otherwise its result is that of decoding the file.  It
    succeeds only when the file exists and decodes. *)
Theorem NewRegistry_contract E :
  (os_IsNotExist E (os_Stat E credentialsFile) = true →
     NewRegistry E
     = (zeroRegistry,
        Some (errorString (".credentials file not found: "
                +:+ from_option Error "<nil>" (os_Stat E credentialsFile))))) ∧
  (∀ err, os_IsNotExist E (os_Stat E credentialsFile) = false →
     os_Stat E credentialsFile = Some err →
     NewRegistry E = (zeroRegistry, Some err)) ∧
  (os_IsNotExist E (os_Stat E credentialsFile) = false →
     os_Stat E credentialsFile = None →
     NewRegistry E = toml_DecodeFile E credentialsFile zeroRegistry) ∧
  (∀ r, NewRegistry E = (r, None) →
     os_Stat E credentialsFile = None ∧
     toml_DecodeFile E credentialsFile zeroRegistry = (r, None)).
Proof.
  unfold NewRegistry. cbv zeta. split; [| split; [| split]].
  - intros ->. do 2 f_equal. unfold Errorf. f_equal. cbn [Sprintf].
    by rewrite !formatArg_s, !append_empty.
  - by intros err -> ->.
  - intros -> ->. by destruct (toml_DecodeFile E credentialsFile zeroRegistry) as [r [e |]].
  - intros r. destruct (os_IsNotExist E (os_Stat E credentialsFile)); [intros [=] |].
    destruct (os_Stat E credentialsFile); [intros [=] |].
    destruct (toml_DecodeFile E credentialsFile zeroRegistry) as [r' [e |]];
      intros [= <-]; done.
Qed.

Lemma NewRegistry_contract_witness :
  NewRegistry (noCredentialsEnv [])
  = (zeroRegistry,
     Some (errorString
       ".credentials file not found: stat .credentials: no such file or directory")) ∧
  NewRegistry (Reference.env []) = (Reference.credentials, None).
Proof.
  split.
  - destruct (NewRegistry_contract (noCredentialsEnv [])) as [Hmissing _].
    exact (Hmissing eq_refl).
  - destruct (NewRegistry_contract (Reference.env [])) as (_ & _ & Hdecoded & _).
    exact (Hdecoded eq_refl eq_refl).
Defined.

(** X15. Without credentials no command reaches the network: when
    [NewRegistry] fails, the commands that load it return an exit error with
    its message and code 1, having sent and printed nothing ([deleteImage]
    and [showTotalImageSize] load it only when an image name is given). *)
Theorem commands_need_credentials E c r0 err w :
  NewRegistry E = (r0, Some err) →
  let failed := (Returned (Some (ExitError (Error err) 1)), w) in
  listImages E c w = failed ∧
  listTagsByImage E c w = failed ∧
  showImageInfo E c w = failed ∧
  (c_String c "name" ≠ "" → deleteImage E c w = failed) ∧
  (c_String c "name" ≠ "" → showTotalImageSize E c w = failed).
Proof.
  intros Hreg failed. subst failed.
  unfold listImages, listTagsByImage, showImageInfo, deleteImage, showTotalImageSize.
  cbv zeta. rewrite Hreg.
  repeat split; intros Hname; by rewrite bool_decide_eq_false_2.
Qed.

Lemma commands_need_credentials_witness :
  let failed :=
    (Returned (Some (ExitError
       ".credentials file not found: stat .credentials: no such file or directory" 1)),
     @nil event) in
  listImages (noCredentialsEnv catalogAnswers) (commandLine "" "" 0) [] = failed ∧
  deleteImage (noCredentialsEnv retentionAnswers) (commandLine "app" "" 2) [] = failed.
Proof.
  intros failed.
  assert (Hreg : ∀ table, NewRegistry (noCredentialsEnv table)
            = (zeroRegistry, Some (errorString
                 ".credentials file not found: stat .credentials: no such file or directory")))
    by reflexivity.
  split.
  - by destruct (commands_need_credentials _ (commandLine "" "" 0) _ _ []
                   (Hreg catalogAnswers)) as (Hlist & _).
  - destruct (commands_need_credentials _ (commandLine "app" "" 2) _ _ []
                (Hreg retentionAnswers)) as (_ & _ & _ & Hdelete & _).
    by apply Hdelete.
Defined.

(** ** How the commands fail *)

Lemma Yields_ret {A} (Q : A → Prop) a : Q a → Yields Q (ret a).
Proof. by intros Ha w a' w' [= <- <-]. Qed.

Lemma Yields_bind {A B} (Q : B → Prop) (m : M A) (k : A → M B) :
  (∀ a, Yields Q (k a)) → Yields Q (bind m k).
Proof.
  intros Hk w b w'. unfold bind. destruct (m w) as [[a | msg] w1]; [| intros [=]].
  apply Hk.
Qed.

Lemma Yields_forRange {A S R} (Q : R → Prop) (xs : list A)
    (body : A → S → M (S + R)) s :
  (∀ x s', Yields (fun res => ∀ v, res = inr v → Q v) (body x s')) →
  Yields (fun res => ∀ v, res = inr v → Q v) (forRange xs body s).
Proof.
  intros Hbody. revert s. induction xs as [|x xs IH]; intros s; cbn [forRange].
  - by apply Yields_ret.
  - intros w res w'. unfold bind.
    destruct (body x s w) as [[[s' | v] | msg] w1] eqn:Hrun; [| | intros [=]].
    + apply IH.
    + intros [= <- <-]. exact (Hbody _ _ _ _ _ Hrun).
Qed.

Lemma ExitsWith1_exit msg : ExitsWith1 (Some (NewExitError msg 1)).
Proof. intros err [= <-]. by eexists. Qed.

Lemma ExitsWith1_nil : ExitsWith1 None.
Proof. by intros err. Qed.

(** X9. An error returned by a command is always an exit error with exit
    code 1: [listImages], [listTagsByImage], [showImageInfo], [deleteImage]
    and [showTotalImageSize] never hand on the error of the registry client
    as it is. *)
Theorem commands_fail_with_exit_code_1 E c :
  Yields ExitsWith1 (listImages E c) ∧
  Yields ExitsWith1 (listTagsByImage E c) ∧
  Yields ExitsWith1 (showImageInfo E c) ∧
  Yields ExitsWith1 (deleteImage E c) ∧
  Yields ExitsWith1 (showTotalImageSize E c).
Proof.
  pose proof ExitsWith1_exit as Hexit. pose proof ExitsWith1_nil as Hnil.
  split; [| split; [| split; [| split]]].
  - unfold listImages.
    destruct (NewRegistry E) as [r [err |]]; [by apply Yields_ret |].
    apply Yields_bind. intros listed. cbv zeta.
    destruct (snd listed); [by apply Yields_ret |].
    do 2 (apply Yields_bind; intros ?). by apply Yields_ret.
  - unfold listTagsByImage. cbv zeta.
    destruct (NewRegistry E) as [r [err |]]; [by apply Yields_ret |].
    do 2 (apply Yields_bind; intros ?).
    destruct (snd _); [by apply Yields_ret |].
    do 2 (apply Yields_bind; intros ?). by apply Yields_ret.
  - unfold showImageInfo. cbv zeta.
    destruct (NewRegistry E) as [r [err |]]; [by apply Yields_ret |].
    do 2 (apply Yields_bind; intros ?).
    destruct (snd _); [by apply Yields_ret |].
    do 4 (apply Yields_bind; intros ?). by apply Yields_ret.
  - unfold deleteImage. cbv zeta.
    destruct (bool_decide (c_String c "name" = "")).
    { do 2 (apply Yields_bind; intros ?). by apply Yields_ret. }
    destruct (NewRegistry E) as [r [err |]]; [by apply Yields_ret |].
    destruct (bool_decide (c_String c "tag" = "")).
    + destruct (bool_decide (c_Int c "keep" = 0%Z)).
      { do 2 (apply Yields_bind; intros ?). by apply Yields_ret. }
      apply Yields_bind. intros listed.
      destruct (snd listed); [by apply Yields_ret |].
      destruct (bool_decide _).
      * do 2 (apply Yields_bind; intros ?). by apply Yields_ret.
      * apply Yields_bind; intros ?. by apply Yields_ret.
    + apply Yields_bind. intros [err |]; by apply Yields_ret.
  - unfold showTotalImageSize. cbv zeta.
    destruct (bool_decide (c_String c "name" = "")).
    { apply Yields_bind; intros ?. by apply Yields_ret. }
    destruct (NewRegistry E) as [r [err |]]; [by apply Yields_ret |].
    apply Yields_bind. intros listed.
    destruct (snd listed); [by apply Yields_ret |].
    intros w res w'. unfold bind at 1.
    match goal with
    | |- context [forRange ?xs ?body ?s w] =>
        pose proof (Yields_forRange ExitsWith1 xs body s) as Hloop;
        destruct (forRange xs body s w) as [[[sizeInfo | v] | msg] w1] eqn:Hrun
    end; [| | intros [=]].
    + unfold bind, emit, ret. intros [= <- <-]. apply Hnil.
    + unfold ret. intros [= <- <-].
      eapply Hloop; [| exact Hrun | reflexivity].
      intros tag sizeInfo. apply Yields_bind. intros fetched. cbv zeta.
      destruct (snd fetched); apply Yields_ret; intros v' [= <-]; apply Hexit.
Qed.

Lemma commands_fail_with_exit_code_1_witness :
  deleteImage (Reference.env failingAnswers) (commandLine "app" "v1" 0) []
  = (Returned (Some (ExitError "HTTP Code: 500" 1)),
     [Sent (searchRequest Reference.credentials "app" "v1")]) ∧
  ∃ msg, ExitError "HTTP Code: 500" 1 = ExitError msg 1.
Proof.
  destruct (commands_fail_with_exit_code_1 (Reference.env failingAnswers)
              (commandLine "app" "v1" 0)) as (_ & _ & _ & Hdelete & _).
  assert (Hrun : deleteImage (Reference.env failingAnswers) (commandLine "app" "v1" 0) []
                 = (Returned (Some (ExitError "HTTP Code: 500" 1)),
                    [Sent (searchRequest Reference.credentials "app" "v1")]))
    by (vm_compute; reflexivity).
  split; [exact Hrun |].
  exact (Hdelete _ _ _ Hrun _ eq_refl).
Defined.

(** ** What the listing commands print *)

Lemma printing_loop_run {A} (xs : list A) (print : A → event) w :
  forRange xs (fun x (_ : unit) =>
    emit (print x) ;;; ret (inl tt : unit + option error)) tt w
  = (Returned (inl tt), w ++ map print xs).
Proof.
  revert w. induction xs as [|x xs IH]; intros w; cbn [forRange map].
  - unfold ret. by rewrite app_nil_r.
  - unfold bind at 1. unfold bind at 1. unfold emit at 1. unfold ret at 1.
    rewrite IH. by rewrite <- app_assoc.
Qed.

Ltac printing_loop print :=
  match goal with
  | |- context [forRange ?xs ?body tt ?w0] =>
      change (forRange xs body tt w0)
        with (forRange xs (fun x (_ : unit) =>
                emit (print x) ;;; ret (inl tt : unit + option error)) tt w0);
      rewrite (printing_loop_run xs print w0)
  end.

(** X11. When the tags are listed without error, [listTagsByImage] prints
    them one per line in the order the sort leaves them, which is ascending
    by extracted number and holds the listed tags and no others, and then
    the line "There are <n> images for <name>" with their count. *)
Theorem listTagsByImage_prints_sorted E c r tags w w1 :
  SortContract E →
  NewRegistry E = (r, None) →
  c_String c "name" ≠ "" →
  ListTagsByImage E r (c_String c "name") w = (Returned (tags, None), w1) →
  let sorted := sort_Sort E compareStringNumber (elems tags) in
  listTagsByImage E c w
  = (Returned None,
     w1 ++ map line sorted ++ [thereAre (len tags) (c_String c "name")]) ∧
  sorted ≡ₚ elems tags ∧
  StronglySorted byNumber sorted.
Proof.
  intros Hsort Hreg Hname Hlist sorted.
  destruct (sorted_by_number E (elems tags) Hsort) as [Hperm Hsorted].
  fold sorted in Hperm, Hsorted.
  split; [| done].
  unfold listTagsByImage. cbv zeta. rewrite Hreg.
  rewrite bool_decide_eq_false_2 by done.
  unfold bind at 1. unfold ret at 1.
  unfold bind at 1. rewrite Hlist. cbn [fst snd].
  unfold Compare_Sort. fold sorted. cbn [elems].
  assert (Hlen : len (mkSlice sorted (spare tags)) = len tags)
    by (unfold len; cbn [elems]; by rewrite (Permutation_length Hperm)).
  rewrite Hlen.
  unfold bind at 1. unfold Println. printing_loop line.
  unfold bind, emit, ret. by rewrite <- app_assoc.
Qed.

Lemma listTagsByImage_prints_sorted_witness :
  let E := Reference.env retentionAnswers in
  let r := Reference.credentials in
  listTagsByImage E (commandLine "app" "" 0) []
  = (Returned None,
     [Sent (tagsRequest r "app");
      line "latest"; line "v1"; line "v2"; line "v3"; line "v10";
      thereAre 5 "app"]).
Proof.
  intros E r.
  pose (tags := mkSlice ["v10"; "v2"; "v1"; "latest"; "v3"] [] : slice string).
  assert (Hlist : ListTagsByImage E r (c_String (commandLine "app" "" 0) "name") []
                  = (Returned (tags, None), [Sent (tagsRequest r "app")]))
    by (vm_compute; reflexivity).
  assert (Hname : c_String (commandLine "app" "" 0) "name" ≠ "") by done.
  destruct (listTagsByImage_prints_sorted E (commandLine "app" "" 0) r tags [] _
              (reference_sort_contract retentionAnswers) eq_refl Hname Hlist)
    as [Hrun _].
  rewrite Hrun. vm_compute. reflexivity.
Defined.

(** X14. When the catalog is read without error, [listImages] prints the
    image names one per line in the order of the answer, then "Total
    images: <n>".  When the manifest is read without error, [showImageInfo]
    prints the image and tag, the size of the config, the line "Layers:"
    and one line with digest and size per layer, in the order of the
    manifest. *)
Theorem listings_print_in_order E c r w w1 :
  NewRegistry E = (r, None) →
  (∀ images,
     ListImages E r w = (Returned (images, None), w1) →
     listImages E c w
     = (Returned None, w1 ++ map line (elems images) ++ [totalImages (len images)])) ∧
  (∀ manifest,
     c_String c "name" ≠ "" → c_String c "tag" ≠ "" →
     Registry_ImageManifest E r (c_String c "name") (c_String c "tag") w
     = (Returned (manifest, None), w1) →
     showImageInfo E c w
     = (Returned None,
        w1 ++ [Printf ("Image: %s:%s" +:+ LF)
                      [ArgS (c_String c "name"); ArgS (c_String c "tag")];
               Printf ("Size: %d" +:+ LF) [ArgD (Size (Config manifest))];
               line "Layers:"]
           ++ map layerLine (elems (Layers manifest)))).
Proof.
  intros Hreg. split.
  - intros images Hlist. unfold listImages. rewrite Hreg.
    unfold bind at 1. rewrite Hlist. cbn [fst snd].
    unfold bind at 1. unfold Println. printing_loop line.
    unfold bind, emit, ret. by rewrite <- app_assoc.
  - intros manifest Hname Htag Hget. unfold showImageInfo. cbv zeta. rewrite Hreg.
    rewrite bool_decide_eq_false_2 by (by intros [? | ?]).
    unfold bind at 1. unfold ret at 1.
    unfold bind at 1. rewrite Hget. cbn [fst snd].
    unfold Println.
    do 3 (unfold bind at 1; unfold emit at 1).
    unfold bind at 1. printing_loop layerLine.
    unfold ret. by rewrite <- !app_assoc.
Qed.

Lemma listings_print_in_order_witness :
  let E := Reference.env catalogAnswers in
  let r := Reference.credentials in
  listImages E (commandLine "" "" 0) []
  = (Returned None,
     [Sent (catalogRequest r); line "app"; line "db"; line "proxy"; totalImages 3]).
Proof.
  intros E r.
  destruct (listings_print_in_order E (commandLine "" "" 0) r []
              [Sent (catalogRequest r)] eq_refl) as [Hlist _].
  rewrite (Hlist (mkSlice ["app"; "db"; "proxy"] [])); vm_compute; reflexivity.
Defined.

(** The reads send their request whenever it can be built, and return. *)
Lemma one_request_sent E r image tag w :
  (http_NewRequest_err E "GET" (catalogURL r) = None →
   ∃ a, ListImages E r w = (Returned a, w ++ [Sent (catalogRequest r)])) ∧
  (http_NewRequest_err E "GET" (tagsURL r image) = None →
   ∃ a, ListTagsByImage E r image w = (Returned a, w ++ [Sent (tagsRequest r image)])) ∧
  (http_NewRequest_err E "GET" (manifestURL r image tag) = None →
   ∃ a, Registry_ImageManifest E r image tag w
        = (Returned a, w ++ [Sent (manifestRequest r image tag)])).
Proof.
  split; [| split]; intros Hnew.
  - unfold ListImages. rewrite Sprintf_catalog. unfold NewRequest. rewrite Hnew.
    unfold bind, Do. destruct (client_Do E w _) as [resp | err];
      [destruct (bool_decide _) |]; by eexists.
  - unfold ListTagsByImage. rewrite Sprintf_tags. unfold NewRequest. rewrite Hnew.
    unfold bind, Do. destruct (client_Do E w _) as [resp | err];
      [destruct (bool_decide _) |]; by eexists.
  - unfold Registry_ImageManifest. rewrite Sprintf_manifest. unfold NewRequest.
    rewrite Hnew.
    unfold bind, Do. destruct (client_Do E w _) as [resp | err];
      [destruct (bool_decide _) |]; by eexists.
Qed.

(** ** Commands without an image name *)

(** X10. Without an image name, [deleteImage] and [showTotalImageSize]
    show the help and return nil without loading the credentials or sending
    anything.  [listTagsByImage] and [showImageInfo] show the help too, but
    then carry on: they still send the request, for the empty image name. *)
Theorem commands_without_image_name E c r w :
  c_String c "name" = "" →
  deleteImage E c w
  = (Returned None,
     w ++ [Fprintf ("You should specify the image name" +:+ LF) [];
           ShowSubcommandHelp]) ∧
  showTotalImageSize E c w = (Returned None, w ++ [ShowSubcommandHelp]) ∧
  (NewRegistry E = (r, None) →
   http_NewRequest_err E "GET" (tagsURL r "") = None →
   ∃ res ext, listTagsByImage E c w
              = (res, w ++ [ShowSubcommandHelp; Sent (tagsRequest r "")] ++ ext)) ∧
  (NewRegistry E = (r, None) →
   http_NewRequest_err E "GET" (manifestURL r "" (c_String c "tag")) = None →
   ∃ res ext, showImageInfo E c w
              = (res, w ++ [ShowSubcommandHelp;
                            Sent (manifestRequest r "" (c_String c "tag"))] ++ ext)).
Proof.
  intros Hname. split; [| split; [| split]].
  - unfold deleteImage. cbv zeta. rewrite bool_decide_eq_true_2 by done.
    unfold bind, emit, ret. by rewrite <- app_assoc.
  - unfold showTotalImageSize. cbv zeta. by rewrite bool_decide_eq_true_2 by done.
  - intros Hreg Hnew. unfold listTagsByImage. cbv zeta. rewrite Hreg, Hname.
    rewrite bool_decide_eq_true_2 by done.
    unfold bind at 1. unfold emit at 1.
    destruct (one_request_sent E r "" "" (w ++ [ShowSubcommandHelp])) as (_ & Htags & _).
    destruct (Htags Hnew) as [listed Hlist].
    unfold bind at 1. rewrite Hlist.
    match goal with
    | |- ∃ res ext, ?run ?w0 = _ =>
        destruct (run w0) as [res w'] eqn:Hrest
    end.
    assert (Hext : ∃ ext, w' = ((w ++ [ShowSubcommandHelp]) ++ [Sent (tagsRequest r "")])
                                 ++ ext).
    { revert Hrest. destruct (snd listed).
      - intros [= <- <-]. exists []. by rewrite app_nil_r.
      - unfold bind at 1. unfold Println. printing_loop line.
        unfold bind, emit, ret. intros [= <- <-]. rewrite <- app_assoc. by eexists. }
    destruct Hext as [ext ->]. exists res, ext. rewrite <- !app_assoc. reflexivity.
  - intros Hreg Hnew. unfold showImageInfo. cbv zeta. rewrite Hreg, Hname.
    rewrite bool_decide_eq_true_2 by (by left).
    unfold bind at 1. unfold emit at 1.
    destruct (one_request_sent E r "" (c_String c "tag") (w ++ [ShowSubcommandHelp]))
      as (_ & _ & Hmanifest).
    destruct (Hmanifest Hnew) as [fetched Hget].
    unfold bind at 1. rewrite Hget.
    match goal with
    | |- ∃ res ext, ?run ?w0 = _ =>
        destruct (run w0) as [res w'] eqn:Hrest
    end.
    assert (Hext : ∃ ext, w' = ((w ++ [ShowSubcommandHelp])
                                  ++ [Sent (manifestRequest r "" (c_String c "tag"))])
                                 ++ ext).
    { revert Hrest. destruct (snd fetched).
      - intros [= <- <-]. exists []. by rewrite app_nil_r.
      - unfold Println.
        do 3 (unfold bind at 1; unfold emit at 1).
        unfold bind at 1. printing_loop layerLine.
        unfold ret. intros [= <- <-]. eexists. rewrite <- !app_assoc. reflexivity. }
    destruct Hext as [ext ->]. exists res, ext. rewrite <- !app_assoc. reflexivity.
Qed.

Lemma commands_without_image_name_witness :
  let E := Reference.env [] in
  let r := Reference.credentials in
  deleteImage E (commandLine "" "" 2) []
  = (Returned None,
     [Fprintf ("You should specify the image name" +:+ LF) []; ShowSubcommandHelp]) ∧
  ∃ res ext,
    listTagsByImage E (commandLine "" "" 0) []
    = (res, [] ++ [ShowSubcommandHelp; Sent (tagsRequest r "")] ++ ext).
Proof.
  intros E r. split.
  - by destruct (commands_without_image_name E (commandLine "" "" 2) r [] eq_refl)
      as [Hdelete _].
  - destruct (commands_without_image_name E (commandLine "" "" 0) r [] eq_refl)
      as (_ & _ & Htags & _).
    exact (Htags eq_refl eq_refl).
Defined.

(** ** When listing or fetching fails *)

(** X16. When listing the tags fails, the commands built on the listing
    stop there: [deleteImage] with a keep count, [showTotalImageSize] and
    [listTagsByImage] return the listing's message as an exit error with
    code 1, and send and print nothing after the listing. *)
Theorem listing_failure_stops_the_command E c r listed err w w1 :
  NewRegistry E = (r, None) →
  c_String c "name" ≠ "" →
  ListTagsByImage E r (c_String c "name") w = (Returned (listed, Some err), w1) →
  let failed := (Returned (Some (ExitError (Error err) 1)), w1) in
  (c_String c "tag" = "" → c_Int c "keep" ≠ 0%Z → deleteImage E c w = failed) ∧
  showTotalImageSize E c w = failed ∧
  listTagsByImage E c w = failed.
Proof.
  intros Hreg Hname Hlist failed. subst failed. split; [| split].
  - intros Htag Hkeep. unfold deleteImage. cbv zeta.
    rewrite bool_decide_eq_false_2 by done. rewrite Hreg.
    rewrite (bool_decide_eq_true_2 _ Htag).
    rewrite bool_decide_eq_false_2 by done.
    unfold bind at 1. by rewrite Hlist.
  - unfold showTotalImageSize. cbv zeta.
    rewrite bool_decide_eq_false_2 by done. rewrite Hreg.
    unfold bind at 1. by rewrite Hlist.
  - unfold listTagsByImage. cbv zeta. rewrite Hreg.
    rewrite bool_decide_eq_false_2 by done.
    unfold bind at 1. unfold ret at 1. unfold bind at 1. by rewrite Hlist.
Qed.

Lemma listing_failure_stops_the_command_witness :
  let E := Reference.env unreachableAnswers in
  let r := Reference.credentials in
  deleteImage E (commandLine "app" "" 2) []
  = (Returned (Some (ExitError "connection refused" 1)), [Sent (tagsRequest r "app")]).
Proof.
  intros E r.
  assert (Hlist : ListTagsByImage E r (c_String (commandLine "app" "" 2) "name") []
                  = (Returned (nilSlice, Some unreachable), [Sent (tagsRequest r "app")]))
    by (vm_compute; reflexivity).
  assert (Hname : c_String (commandLine "app" "" 2) "name" ≠ "") by done.
  destruct (listing_failure_stops_the_command E (commandLine "app" "" 2) r _ _ [] _
              eq_refl Hname Hlist) as [Hdelete _].
  apply Hdelete; [reflexivity | vm_compute; discriminate].
Defined.

(** The loop of [showTotalImageSize] over tags of which one fails: the
    manifests before it are fetched, the failure ends the loop, the tags
    after it are not looked at. *)
Lemma fetch_loop_fails E r image before bad after ms m err w w2 w3
    (sizeInfo : gmap string Z) :
  Fetched E r image before ms w w2 →
  Registry_ImageManifest E r image bad w2 = (Returned (m, Some err), w3) →
  forRange (before ++ bad :: after) (fun tag sizeInfo =>
      fetched <- Registry_ImageManifest E r image tag ;;
      let manifest := fst fetched in
      match snd fetched with
      | Some err => ret (inr (Some (NewExitError (Error err) 1)))
      | None => ret (inl (recordLayers sizeInfo (Layers manifest)))
      end) sizeInfo w
  = (Returned (inr (Some (NewExitError (Error err) 1))), w3).
Proof.
  intros Hfetched Hbad. revert sizeInfo.
  induction Hfetched as [w | tag tags m' ms w w1 w' Hget _ IH]; intros sizeInfo.
  - cbn [app forRange]. unfold bind at 1. unfold bind at 1. rewrite Hbad.
    reflexivity.
  - cbn [app forRange]. unfold bind at 1. unfold bind at 1. rewrite Hget.
    cbn [fst snd]. unfold ret at 1. by apply IH.
Qed.

(** X12. [showTotalImageSize] stops at the first manifest that cannot be
    fetched: the manifests of the tags before it have been requested, the
    command returns the failure's message as an exit error with code 1 in
    the world that request left, so the tags after it are never requested
    and no total is printed. *)
Theorem total_size_stops_at_first_failure
    E c r tags before bad after ms m err w w1 w2 w3 :
  c_String c "name" ≠ "" →
  NewRegistry E = (r, None) →
  ListTagsByImage E r (c_String c "name") w = (Returned (tags, None), w1) →
  elems tags = before ++ bad :: after →
  Fetched E r (c_String c "name") before ms w1 w2 →
  Registry_ImageManifest E r (c_String c "name") bad w2
  = (Returned (m, Some err), w3) →
  showTotalImageSize E c w = (Returned (Some (ExitError (Error err) 1)), w3) ∧
  (w3 = w2 ∨ w3 = w2 ++ [Sent (manifestRequest r (c_String c "name") bad)]).
Proof.
  intros Hname Hreg Hlist Hsplit Hfetched Hbad. split.
  - unfold showTotalImageSize. cbv zeta.
    rewrite bool_decide_eq_false_2 by done. rewrite Hreg.
    unfold bind at 1. rewrite Hlist. cbn [fst snd]. rewrite Hsplit.
    unfold bind at 1.
    by rewrite (fetch_loop_fails E r _ before bad after ms m err w1 w2 w3 ∅
                  Hfetched Hbad).
  - destruct (ImageManifest_sends E r (c_String c "name") bad _ _ _ Hbad)
      as (ext & -> & Hext).
    revert Hbad. unfold Registry_ImageManifest. rewrite Sprintf_manifest.
    unfold NewRequest.
    destruct (http_NewRequest_err E "GET" _).
    + intros [= _ _ Hw]. left. by rewrite <- Hw.
    + unfold bind, Do. destruct (client_Do E w2 _) as [resp | e];
        [destruct (bool_decide _) |]; intros [= _ _ Hw]; right; by rewrite <- Hw.
Qed.

Lemma total_size_stops_at_first_failure_witness :
  let E := Reference.env brokenManifestAnswers in
  let r := Reference.credentials in
  showTotalImageSize E (commandLine "app" "" 0) []
  = (Returned (Some (ExitError "HTTP Code: 500" 1)),
     [Sent (tagsRequest r "app"); Sent (manifestRequest r "app" "v1");
      Sent (manifestRequest r "app" "v2")]).
Proof.
  intros E r.
  pose (c := commandLine "app" "" 0).
  pose (m1 := manifestOf [layerOf "sha256:aa" 10]).
  pose (w1 := [Sent (tagsRequest r "app")]).
  pose (w2 := w1 ++ [Sent (manifestRequest r "app" "v1")]).
  pose (w3 := w2 ++ [Sent (manifestRequest r "app" "v2")]).
  assert (Hname : c_String c "name" ≠ "") by done.
  assert (Hlist : ListTagsByImage E r (c_String c "name") []
                  = (Returned (mkSlice ["v1"; "v2"; "v3"] [], None), w1))
    by (vm_compute; reflexivity).
  assert (Hfetched : Fetched E r (c_String c "name") ["v1"] [m1] w1 w2).
  { apply (Fetched_cons E r _ "v1" [] m1 [] w1 w2 w2); [vm_compute; reflexivity |].
    apply Fetched_nil. }
  assert (Hbad : Registry_ImageManifest E r (c_String c "name") "v2" w2
                 = (Returned (zeroImageManifest, Some (errorString "HTTP Code: 500")), w3))
    by (vm_compute; reflexivity).
  destruct (total_size_stops_at_first_failure E c r _ ["v1"] "v2" ["v3"] [m1] _ _
              [] w1 w2 w3 Hname eq_refl Hlist eq_refl Hfetched Hbad) as [Hrun _].
  exact Hrun.
Defined.

(** ** The comparator *)

(** X13. [compareStringNumber] is a strict weak order, which is what
    [sort.Sort] needs of a less function: no tag is less than itself, the
    relation is transitive, and so is being neither less nor greater, which
    holds exactly for tags with the same extracted number. *)
Theorem compareStringNumber_strict_weak_order :
  (∀ a, compareStringNumber a a = false) ∧
  (∀ a b, compareStringNumber a b = true → compareStringNumber b a = false) ∧
  (∀ a b c, compareStringNumber a b = true → compareStringNumber b c = true →
            compareStringNumber a c = true) ∧
  (∀ a b, compareStringNumber a b = false ∧ compareStringNumber b a = false ↔
          extractNumberFromString a = extractNumberFromString b) ∧
  (∀ a b c,
     compareStringNumber a b = false → compareStringNumber b a = false →
     compareStringNumber b c = false → compareStringNumber c b = false →
     compareStringNumber a c = false ∧ compareStringNumber c a = false).
Proof.
  unfold compareStringNumber.
  split; [| split; [| split; [| split]]].
  - intros a. lia.
  - intros a b. lia.
  - intros a b c. lia.
  - intros a b. lia.
  - intros a b c. lia.
Qed.

Lemma compareStringNumber_strict_weak_order_witness :
  compareStringNumber "v2" "v10" = true ∧
  compareStringNumber "v10" "v2" = false ∧
  compareStringNumber "v2" "build-2" = false ∧
  compareStringNumber "build-2" "v2" = false.
Proof.
  destruct compareStringNumber_strict_weak_order as (_ & Hasym & _ & Hties & _).
  assert (Hlt : compareStringNumber "v2" "v10" = true) by reflexivity.
  split; [exact Hlt |]. split; [exact (Hasym _ _ Hlt) |].
  apply Hties. reflexivity.
Defined.

(** ** Retention never touches the tags it keeps *)

Lemma retentionLoop_sends E r image oldest :
  Emits (OnlySends (RetentionRequest r image oldest)) (retentionLoop E r image oldest).
Proof.
  unfold retentionLoop. apply Emits_forRange. intros tag _ Hin.
  apply Emits_bind; [by apply Emits_emit | intros _].
  apply Emits_bind; [| intros _; apply Emits_ret].
  eapply Emits_mono; [| apply DeleteImageByTag_sends].
  intros e. apply OnlySends_mono. intros req [-> | Hdel]; [| by right].
  left. by exists tag.
Qed.

(** X17. A retention run never asks the registry about a tag it keeps.
    For a keep count of at least one, after the listing, every request of
    [deleteImage] is the search for one of the first len(tags) - keep sorted
    tags or the deletion of an asset, on runs that return and on runs that
    panic alike; with fewer tags than the keep count nothing is requested. *)
Theorem retention_leaves_kept_tags_alone E c r tags w w1 :
  SortContract E →
  c_String c "name" ≠ "" → c_String c "tag" = "" → (1 ≤ c_Int c "keep")%Z →
  NewRegistry E = (r, None) →
  ListTagsByImage E r (c_String c "name") w = (Returned (tags, None), w1) →
  (len tags < 2 ^ 63)%Z →
  let oldest := take (Z.to_nat (len tags - c_Int c "keep"))
                     (sort_Sort E compareStringNumber (elems tags)) in
  ∃ ext,
    snd (deleteImage E c w) = w1 ++ ext ∧
    Forall (OnlySends (RetentionRequest r (c_String c "name") oldest)) ext ∧
    ((len tags ≤ c_Int c "keep")%Z → ∀ req, Sent req ∉ ext).
Proof.
  intros Hsort Hname Htag Hkeep Hreg Hlist Hlen oldest.
  rewrite (deleteImage_keep_run E c r tags w w1 Hsort Hname Htag Hkeep Hreg Hlist Hlen).
  cbv zeta. fold oldest.
  destruct (decide (c_Int c "keep" ≤ len tags)%Z) as [Hle | Hgt].
  - rewrite bool_decide_eq_true_2 by done.
    destruct (retentionLoop E r (c_String c "name") oldest w1) as [res w'] eqn:Hloop.
    destruct (retentionLoop_sends E r _ oldest _ _ _ Hloop) as (ext & -> & Hext).
    exists ext. split; [by destruct res |]. split; [done |].
    intros Hsame.
    assert (Hnone : oldest = []).
    { unfold oldest. replace (len tags - c_Int c "keep")%Z with 0%Z by lia. done. }
    rewrite Hnone in Hloop. injection Hloop as _ Hw.
    assert (ext = []) as -> by (by eapply app_inv_head; rewrite app_nil_r).
    intros req Hin. by apply elem_of_nil in Hin.
  - rewrite bool_decide_eq_false_2 by done. cbn [snd].
    eexists. split; [reflexivity |]. split; [by repeat constructor |].
    intros _ req Hin. apply list_elem_of_singleton in Hin. discriminate Hin.
Qed.

Lemma retention_leaves_kept_tags_alone_witness :
  let E := Reference.env retentionAnswers in
  let r := Reference.credentials in
  ∃ ext,
    snd (deleteImage E (commandLine "app" "" 2) []) = [Sent (tagsRequest r "app")] ++ ext ∧
    Forall (OnlySends (RetentionRequest r "app" ["latest"; "v1"; "v2"])) ext.
Proof.
  intros E r.
  pose (c := commandLine "app" "" 2).
  pose (tags := mkSlice ["v10"; "v2"; "v1"; "latest"; "v3"] [] : slice string).
  assert (Hname : c_String c "name" ≠ "") by done.
  assert (Hkeep : (1 ≤ c_Int c "keep")%Z) by (vm_compute; discriminate).
  assert (Hlist : ListTagsByImage E r (c_String c "name") []
                  = (Returned (tags, None), [Sent (tagsRequest r "app")]))
    by (vm_compute; reflexivity).
  assert (Hlen : (len tags < 2 ^ 63)%Z) by (vm_compute; reflexivity).
  destruct (retention_leaves_kept_tags_alone E c r tags [] _
              (reference_sort_contract retentionAnswers)
              Hname eq_refl Hkeep eq_refl Hlist Hlen) as (ext & Hrun & Hall & _).
  exists ext. split; [exact Hrun |]. exact Hall.
Defined.

(** ** When a read succeeds *)

Ltac read_succeeds :=
  rewrite ?Sprintf_catalog, ?Sprintf_tags, ?Sprintf_manifest, ?Sprintf_search;
  unfold Answers, NewRequest, catalogRequest, tagsRequest, manifestRequest,
    searchRequest, clientRequest;
  cbn [Method URL];
  match goal with
  | |- context [http_NewRequest_err ?E ?m ?u] =>
      destruct (http_NewRequest_err E m u);
      [ split; [intros [=] | intros (? & [[=] _] & _)] |]
  end;
  unfold bind, Do, SetBasicAuth, Header_Add;
  cbn [Method URL BasicAuth ReqHeader app];
  change (CanonicalMIMEHeaderKey "Accept") with "Accept";
  match goal with
  | |- context [client_Do ?E ?w ?req] =>
      destruct (client_Do E w req);
      [| split; [intros [=] | intros (? & [_ [=]] & _)]]
  end;
  match goal with
  | |- context [bool_decide (StatusCode ?x ≠ 200%Z)] =>
      let Hcode := fresh "Hcode" in
      destruct (decide (StatusCode x = 200%Z)) as [Hcode | Hcode];
      [ rewrite bool_decide_eq_false_2 by (intros Hne; by apply Hne);
        split;
        [ intros [= <- <-]; eexists; split; [split; reflexivity |];
          split; [exact Hcode |]; split; reflexivity
        | intros (? & [_ [= <-]] & _ & -> & ->); reflexivity ]
      | rewrite bool_decide_eq_true_2 by done;
        split; [intros [=] | intros (? & [_ [= <-]] & ? & _); done] ]
  end.

(** X18. A read reports success exactly when its request was answered with
    status 200, and what it then returns is what the decoder left in the
    zero-initialised result, after exactly one request: [ListImages],
    [ListTagsByImage], [ImageManifest] and [SearchAssets]. *)
Theorem reads_succeed_exactly_on_200 E r image tag w :
  (∀ images w',
     ListImages E r w = (Returned (images, None), w') ↔
     ∃ resp, Answers E w (catalogRequest r) resp ∧ StatusCode resp = 200%Z ∧
             images = Images (fst (Decode_repositories E (Body resp) zeroRepositories)) ∧
             w' = w ++ [Sent (catalogRequest r)]) ∧
  (∀ tags w',
     ListTagsByImage E r image w = (Returned (tags, None), w') ↔
     ∃ resp, Answers E w (tagsRequest r image) resp ∧ StatusCode resp = 200%Z ∧
             tags = Tags (fst (Decode_imageTags E (Body resp) zeroImageTags)) ∧
             w' = w ++ [Sent (tagsRequest r image)]) ∧
  (∀ manifest w',
     Registry_ImageManifest E r image tag w = (Returned (manifest, None), w') ↔
     ∃ resp, Answers E w (manifestRequest r image tag) resp ∧ StatusCode resp = 200%Z ∧
             manifest = fst (Decode_ImageManifest E (Body resp) zeroImageManifest) ∧
             w' = w ++ [Sent (manifestRequest r image tag)]) ∧
  (∀ found w',
     Registry_SearchAssets E r image tag w = (Returned (found, None), w') ↔
     ∃ resp, Answers E w (searchRequest r image tag) resp ∧ StatusCode resp = 200%Z ∧
             found = fst (Decode_SearchAssets E (Body resp) zeroSearchAssets) ∧
             w' = w ++ [Sent (searchRequest r image tag)]).
Proof.
  split; [| split; [| split]].
  - intros images w'. unfold ListImages. cbv zeta. read_succeeds.
  - intros tags w'. unfold ListTagsByImage. cbv zeta. read_succeeds.
  - intros manifest w'. unfold Registry_ImageManifest. cbv zeta. read_succeeds.
  - intros found w'. unfold Registry_SearchAssets. cbv zeta. read_succeeds.
Qed.

Lemma reads_succeed_exactly_on_200_witness :
  let E := Reference.env sizeAnswers in
  let r := Reference.credentials in
  ListTagsByImage E r "app" []
  = (Returned (mkSlice ["v1"; "v2"] [], None), [Sent (tagsRequest r "app")]).
Proof.
  intros E r.
  destruct (reads_succeed_exactly_on_200 E r "app" "v1" []) as (_ & Htags & _).
  apply Htags.
  exists (answerTo sizeAnswers (tagsRequest r "app")).
  split; [split; vm_compute; reflexivity |].
  split; [vm_compute; reflexivity |].
  split; [vm_compute; reflexivity | reflexivity].
Defined.

(** ** Deleting one tag from the command line *)

(** X19. With an image name and a tag, [deleteImage] does not list the tags
    and does not look at the keep count: every request it sends is the
    search for this image and tag or the deletion of an asset, and two
    command lines that differ only in the keep count behave alike. *)
Theorem deleteImage_with_tag E c r w :
  c_String c "name" ≠ "" → c_String c "tag" ≠ "" →
  NewRegistry E = (r, None) →
  (∀ c', c_String c' "name" = c_String c "name" →
         c_String c' "tag" = c_String c "tag" →
         deleteImage E c' w = deleteImage E c w) ∧
  (∃ ext, snd (deleteImage E c w) = w ++ ext ∧
          Forall (OnlySends (TagRequest r (c_String c "name") (c_String c "tag"))) ext).
Proof.
  intros Hname Htag Hreg.
  assert (Hrun : ∀ c', c_String c' "name" = c_String c "name" →
                       c_String c' "tag" = c_String c "tag" →
    deleteImage E c' w
    = match DeleteImageByTag E r (c_String c "name") (c_String c "tag") w with
      | (Returned (Some err), w') => (Returned (Some (NewExitError (Error err) 1)), w')
      | (Returned None, w') => (Returned None, w')
      | (Panicked msg, w') => (Panicked msg, w')
      end).
  { intros c' Hname' Htag'. unfold deleteImage. cbv zeta. rewrite Hname', Htag', Hreg.
    rewrite !bool_decide_eq_false_2 by done. unfold bind.
    by destruct (DeleteImageByTag E r _ _ w) as [[[err |] | msg] w']. }
  split.
  - intros c' Hname' Htag'. by rewrite (Hrun c' Hname' Htag'), (Hrun c eq_refl eq_refl).
  - rewrite (Hrun c eq_refl eq_refl).
    destruct (DeleteImageByTag E r _ _ w) as [res w'] eqn:Hdel.
    destruct (DeleteImageByTag_sends E r _ _ _ _ _ Hdel) as (ext & -> & Hext).
    exists ext. split; [by destruct res as [[err |] | msg] | done].
Qed.

Lemma deleteImage_with_tag_witness :
  let E := Reference.env retentionAnswers in
  let r := Reference.credentials in
  deleteImage E (commandLine "app" "v1" 7) [] = deleteImage E (commandLine "app" "v1" 0) [] ∧
  deleteImage E (commandLine "app" "v1" 0) []
  = (Returned None,
     [Sent (searchRequest r "app" "v1"); Sent (deleteRequest r "a1"); deleted "app" "v1"]).
Proof.
  intros E r.
  assert (Hname : c_String (commandLine "app" "v1" 0) "name" ≠ "") by done.
  assert (Htag : c_String (commandLine "app" "v1" 0) "tag" ≠ "") by done.
  destruct (deleteImage_with_tag E (commandLine "app" "v1" 0) r [] Hname Htag eq_refl)
    as [Hkeep _].
  split; [apply Hkeep; reflexivity |].
  vm_compute. reflexivity.
Defined.
